(** * Department portal backend: a shallow embedding of the Express handlers

    Two backend variants are modelled side by side:
    - [Postgres]: src/server.js (node-postgres, async handlers with try/catch);
    - [MySQL]:    src/unnamed/part_000 (mysql2, callback handlers).

    The relational store is modelled as a table (a list of rows, in scan
    order) plus the few store-specific behaviours the handlers depend on;
    every SQL statement of the source is a constructor of [stmt] and its
    meaning is given by [exec], following SQL's three-valued logic for NULL.
    String comparison is exact (binary / deterministic collation); ORDER BY
    on text uses byte order with NULLS LAST (PostgreSQL's default for ASC).
    Characters are modelled as ASCII; JavaScript's whitespace set is its
    ASCII part (tab, LF, VT, FF, CR, space). *)

From Stdlib Require Import ZArith QArith List String Ascii Bool Lia.
From Stdlib Require Import Sorted Permutation.
From Stdlib Require Import Numbers.DecimalString.
Import ListNotations.
Set Warnings "-register-all".

Open Scope nat_scope.
Open Scope string_scope.

(* ================================================================== *)
(** ** JavaScript values and built-ins used by the handlers *)
Module Js.

(** JavaScript whitespace (ASCII part), as removed by [String.prototype.trim]
    and matched by the regular-expression class [\s]. *)
Definition is_ws (c : ascii) : bool :=
  match nat_of_ascii c with
  | 9 | 10 | 11 | 12 | 13 | 32 => true
  | _ => false
  end.

Fixpoint drop_while (p : ascii -> bool) (l : list ascii) : list ascii :=
  match l with
  | [] => []
  | c :: l' => if p c then drop_while p l' else l
  end.

(** Remove the longest prefix and suffix made of characters satisfying [p]. *)
Definition strip (p : ascii -> bool) (s : string) : string :=
  string_of_list_ascii
    (rev (drop_while p (rev (drop_while p (list_ascii_of_string s))))).

(** [s.trim()] *)
Definition trim (s : string) : string := strip is_ws s.

(** [s.replace(/\s+/g, "_")]: the global regex scans left to right and
    replaces each maximal (greedy) run of whitespace by one underscore;
    [in_run] records that the previous character belonged to a run. *)
Fixpoint replace_ws_runs (in_run : bool) (s : string) : string :=
  match s with
  | EmptyString => EmptyString
  | String c s' =>
      if is_ws c then
        if in_run then replace_ws_runs true s'
        else String "_" (replace_ws_runs true s')
      else String c (replace_ws_runs false s')
  end.

(** JavaScript numbers. [Number] rounds to binary64 ([to_double] below);
    a [Finite] value is otherwise an exact rational. *)
Inductive jsnum :=
| NaN
| Infinity (neg : bool)
| Finite (q : Q).

(** The integer denoted by a number, if it is one. *)
Definition jsnum_int (n : jsnum) : option Z :=
  match n with
  | Finite q =>
      if Z.eqb (Z.rem (Qnum q) (Zpos (Qden q))) 0
      then Some (Z.quot (Qnum q) (Zpos (Qden q))) else None
  | _ => None
  end.

(** [a / b] rounded to an integer, ties to even ([b > 0]). *)
Definition round_half_even (a b : Z) : Z :=
  let (q, r) := Z.div_eucl a b in
  match Z.compare (2 * r) b with
  | Lt => q
  | Gt => q + 1
  | Eq => if Z.even q then q else q + 1
  end.

(** The binary64 value nearest to [x] (ties to even): 53-bit significands,
    subnormals below 2^-1022, and [Infinity] from 2^1024 on. *)
Definition round_binary64 (x : Q) : jsnum :=
  let p := Qnum x in
  let d := Zpos (Qden x) in
  if (p =? 0)%Z then Finite 0 else
  let a := Z.abs p in
  (* [e]: the exponent of the leading bit of [a / d] *)
  let e0 := (Z.log2 a - Z.log2 d)%Z in
  let below := if (0 <=? e0)%Z then (a <? d * 2 ^ e0)%Z
               else (a * 2 ^ (- e0) <? d)%Z in
  let e := if below then (e0 - 1)%Z else e0 in
  (* [ex]: the exponent of the last significand bit *)
  let ex := Z.max (e - 52) (-1074) in
  let m := if (ex <=? 0)%Z then round_half_even (a * 2 ^ (- ex)) d
           else round_half_even a (d * 2 ^ ex) in
  if (m =? 0)%Z then Finite 0
  else if (1024 <=? Z.log2 m + ex)%Z then Infinity (p <? 0)%Z
  else
    let m := if (p <? 0)%Z then (- m)%Z else m in
    if (0 <=? ex)%Z then Finite (inject_Z (m * 2 ^ ex))
    else Finite (Qmake m (Z.to_pos (2 ^ (- ex)))).

Definition to_double (n : jsnum) : jsnum :=
  match n with
  | Finite x => round_binary64 x
  | _ => n
  end.

Definition digit_val (base : Z) (c : ascii) : option Z :=
  let n := Z.of_nat (nat_of_ascii c) in
  let d :=
    if (48 <=? n)%Z && (n <=? 57)%Z then Some (n - 48)%Z
    else if (97 <=? n)%Z && (n <=? 102)%Z then Some (n - 87)%Z
    else if (65 <=? n)%Z && (n <=? 70)%Z then Some (n - 55)%Z
    else None in
  match d with
  | Some v => if (v <? base)%Z then Some v else None
  | None => None
  end.

(** Value of a non-empty list of digits in [base]; [None] if some character
    is not a digit. *)
Fixpoint digits_val (base acc : Z) (l : list ascii) : option Z :=
  match l with
  | [] => Some acc
  | c :: l' =>
      match digit_val base c with
      | Some v => digits_val base (acc * base + v)%Z l'
      | None => None
      end
  end.

Fixpoint span_digits (l : list ascii) : list ascii * list ascii :=
  match l with
  | c :: l' =>
      match digit_val 10 c with
      | Some _ => let (d, r) := span_digits l' in (c :: d, r)
      | None => ([], l)
      end
  | [] => ([], [])
  end.

Definition sign_of (l : list ascii) : bool * list ascii :=
  match l with
  | "+"%char :: l' => (false, l')
  | "-"%char :: l' => (true, l')
  | _ => (false, l)
  end.

Definition is_infinity (l : list ascii) : bool :=
  String.eqb (string_of_list_ascii l) "Infinity".

(** Decimal literal [[+-]? (digits [. digits?] | . digits) ([eE][+-]?digits)?]. *)
Definition parse_decimal (l : list ascii) : jsnum :=
  let (neg, l1) := sign_of l in
  if is_infinity l1 then Infinity neg else
  let (ip, l2) := span_digits l1 in
  let '(fp, l3) :=
    match l2 with
    | "."%char :: l2' => span_digits l2'
    | _ => ([], l2)
    end in
  let exp :=
    match l3 with
    | [] => Some 0%Z
    | c :: l4 =>
        if orb (Ascii.eqb c "e") (Ascii.eqb c "E") then
          let (eneg, l5) := sign_of l4 in
          let (ed, l6) := span_digits l5 in
          match ed, l6 with
          | _ :: _, [] =>
              match digits_val 10 0 ed with
              | Some e => Some (if eneg then (- e)%Z else e)
              | None => None
              end
          | _, _ => None
          end
        else None
    end in
  match app ip fp, exp with
  | [], _ => NaN
  | ds, Some e =>
      match digits_val 10 0 ds with
      | Some m =>
          let k := (e - Z.of_nat (List.length fp))%Z in
          let m := if neg then (- m)%Z else m in
          if (0 <=? k)%Z then Finite (inject_Z (m * 10 ^ k))
          else Finite (Qmake m (Z.to_pos (10 ^ (- k))))
      | None => NaN
      end
  | _, None => NaN
  end.

(** [Number(s)] for a string [s] (StringToNumber): the exact value of the
    literal, rounded to binary64. *)
Definition Number_of_string (s : string) : jsnum :=
  to_double
  (match list_ascii_of_string (trim s) with
  | [] => Finite 0
  | "0"%char :: x :: ds =>
      let base :=
        match x with
        | "x"%char | "X"%char => 16%Z
        | "o"%char | "O"%char => 8%Z
        | "b"%char | "B"%char => 2%Z
        | _ => 0%Z
        end in
      if (base =? 0)%Z then parse_decimal ("0"%char :: x :: ds)
      else match ds with
           | [] => NaN
           | _ => match digits_val base 0 ds with
                  | Some v => Finite (inject_Z v)
                  | None => NaN
                  end
           end
  | l => parse_decimal l
  end).

(** JSON request bodies (the update route) and JavaScript values passed
    on to the database driver. *)
Inductive jsval :=
| JUndefined
| JNull
| JBool (b : bool)
| JNum (n : jsnum)
| JStr (s : string)
| JArr (l : list jsval)
| JObj.

(** A field of a multipart body as parsed by multer: absent, one value, or
    the array of values of a repeated field. *)
Inductive mval :=
| MMissing
| MStr (s : string)
| MArr (l : list string).

Fixpoint join (sep : string) (l : list string) : string :=
  match l with
  | [] => ""
  | [s] => s
  | s :: l' => s ++ sep ++ join sep l'
  end.

Definition mval_to_jsval (v : mval) : jsval :=
  match v with
  | MMissing => JUndefined
  | MStr s => JStr s
  | MArr l => JArr (map JStr l)
  end.

(** Truthiness of a multipart value. *)
Definition mtruthy (v : mval) : bool :=
  match v with
  | MMissing => false
  | MStr s => negb (String.eqb s "")
  | MArr _ => true
  end.

(** [String(v)] for a truthy-or-defaulted multipart value ([String(array)]
    joins the elements with commas). *)
Definition mString (v : mval) : string :=
  match v with
  | MMissing => "undefined"
  | MStr s => s
  | MArr l => join "," l
  end.

(** [Number(v)] for a multipart value ([Number(undefined)] is NaN; an array
    converts through its string form). *)
Definition mNumber (v : mval) : jsnum :=
  match v with
  | MMissing => NaN
  | MStr s => Number_of_string s
  | MArr l => Number_of_string (join "," l)
  end.

(** [v?.trim()]: [Some None] is [undefined] (for [undefined] and [null]),
    [None] is the TypeError thrown for a value without a [trim] method. *)
Definition opt_trim (v : jsval) : option (option string) :=
  match v with
  | JUndefined | JNull => Some None
  | JStr s => Some (Some (trim s))
  | _ => None
  end.

(** [v?.trim() || ""]: the empty string is falsy, so it also gives "". *)
Definition opt_trim_or_empty (v : jsval) : option string :=
  match opt_trim v with
  | Some (Some s) => Some s
  | Some None => Some ""
  | None => None
  end.

(** [Date.now() + "_"]: decimal rendering of a timestamp. *)
Definition Z_to_dec (z : Z) : string := NilEmpty.string_of_int (Z.to_int z).

End Js.

(* ================================================================== *)
(** ** The relational store: table [class_semester_info] *)
Module Store.
Import Js.

(** One row of [class_semester_info]; every column but [id] may be NULL. *)
Record Row := mkRow {
  id : Z;
  class_name : option string;
  semester : option Z;
  section : option string;
  academic_year : option string;
  mentor_name : option string;
  designation : option string;
  contact : option string;
  timetable_link : option string;
  syllabus_link : option string;
  mentor_photo : option string
}.

(** The store, with the behaviours that depend on the database and its
    driver rather than on the handlers:
    - [online = false]: every statement fails (no connection);
    - [coerce_other v]: how a parameter that is neither NULL nor an integer
      number is bound to an integer column ([None]: rejected, a fault;
      [Some None]: NULL; [Some (Some z)]: the integer [z]);
    - [admits r]: the table's constraints accept the written row [r];
    - [next_id]: the next identity value. *)
Record Db := mkDb {
  table : list Row;
  next_id : Z;
  online : bool;
  coerce_other : jsval -> option (option Z);
  admits : Row -> bool
}.

(** The range of the 32-bit integer columns ([INTEGER] in PostgreSQL,
    [INT] in MySQL). *)
Definition int32_range (z : Z) : bool :=
  (-2147483648 <=? z)%Z && (z <=? 2147483647)%Z.

(** Binding a parameter to an integer column. [undefined] and [null] are
    sent as NULL by both drivers; a number that is an integer in the
    column's range as that integer (both drivers send its decimal digits:
    [String(n)] has no exponent below 1e21). Every other value goes through
    the store's [coerce_other]: strings, fractions, NaN, the infinities,
    and integers out of range (PostgreSQL rejects the latter four, and the
    exponent notation of [String(n)] from 1e21 on). *)
Definition bind_int (db : Db) (v : jsval) : option (option Z) :=
  match v with
  | JUndefined | JNull => Some None
  | JNum n =>
      match jsnum_int n with
      | Some z => if int32_range z then Some (Some z) else coerce_other db v
      | None => coerce_other db v
      end
  | _ => coerce_other db v
  end.

(** Three-valued logic: [None] is UNKNOWN. *)
Definition sql_and (a b : option bool) : option bool :=
  match a, b with
  | Some false, _ | _, Some false => Some false
  | Some true, Some true => Some true
  | _, _ => None
  end.

Definition sql_or (a b : option bool) : option bool :=
  match a, b with
  | Some true, _ | _, Some true => Some true
  | Some false, Some false => Some false
  | _, _ => None
  end.

Definition sql_not (a : option bool) : option bool := option_map negb a.

Definition sql_eq_str (a b : option string) : option bool :=
  match a, b with
  | Some x, Some y => Some (String.eqb x y)
  | _, _ => None
  end.

Definition sql_eq_int (a b : option Z) : option bool :=
  match a, b with
  | Some x, Some y => Some (Z.eqb x y)
  | _, _ => None
  end.

Definition is_null {A} (a : option A) : option bool :=
  Some (match a with None => true | Some _ => false end).

(** SQL [TRIM(s)]: removes leading and trailing spaces (and nothing else),
    in PostgreSQL and MySQL alike. *)
Definition is_space (c : ascii) : bool := Ascii.eqb c " ".
Definition sql_trim (s : string) : string := strip is_space s.
Definition TRIM (a : option string) : option string := option_map sql_trim a.

(** [WHERE p]: keep the rows for which [p] is TRUE, in scan order. *)
Definition where_ (p : Row -> option bool) (rows : list Row) : list Row :=
  filter (fun r => match p r with Some true => true | _ => false end) rows.

(** [SELECT DISTINCT]: first occurrences, in scan order. *)
Fixpoint distinct_from {A} (eq_dec : forall x y : A, {x = y} + {x <> y})
    (seen : list A) (l : list A) : list A :=
  match l with
  | [] => []
  | x :: l' =>
      if in_dec eq_dec x seen then distinct_from eq_dec seen l'
      else x :: distinct_from eq_dec (x :: seen) l'
  end.

Definition distinct {A} (eq_dec : forall x y : A, {x = y} + {x <> y})
    (l : list A) : list A := distinct_from eq_dec [] l.

Definition opt_str_dec : forall x y : option string, {x = y} + {x <> y}.
Proof. decide equality; apply string_dec. Defined.

Definition opt_Z_dec : forall x y : option Z, {x = y} + {x <> y}.
Proof. decide equality; apply Z.eq_dec. Defined.

(** [ORDER BY]: insertion sort on a boolean order. *)
Fixpoint insert {A} (le : A -> A -> bool) (x : A) (l : list A) : list A :=
  match l with
  | [] => [x]
  | y :: l' => if le x y then x :: l else y :: insert le x l'
  end.

Fixpoint sort {A} (le : A -> A -> bool) (l : list A) : list A :=
  match l with
  | [] => []
  | x :: l' => insert le x (sort le l')
  end.

(** Ascending order with NULLS LAST (PostgreSQL's default for ASC). *)
Definition nulls_last {A} (le : A -> A -> bool) (a b : option A) : bool :=
  match a, b with
  | Some x, Some y => le x y
  | Some _, None => true
  | None, Some _ => false
  | None, None => true
  end.

Definition text_le : option string -> option string -> bool :=
  nulls_last String.leb.
Definition int_le : option Z -> option Z -> bool := nulls_last Z.leb.

(** [ORDER BY class_name, semester] *)
Definition class_sem_le (r1 r2 : Row) : bool :=
  if opt_str_dec (class_name r1) (class_name r2)
  then int_le (semester r1) (semester r2)
  else text_le (class_name r1) (class_name r2).

(** Column values of an INSERT (without [id]) and of an UPDATE. *)
Record Vals := mkVals {
  v_class_name : option string;
  v_semester : jsval;
  v_section : option string;
  v_academic_year : option string;
  v_mentor_name : option string;
  v_designation : option string;
  v_contact : option string;
  v_timetable_link : option string
}.

(** The statements issued by the handlers, one constructor per SQL text. *)
Inductive stmt :=
(** [SELECT DISTINCT class_name FROM class_semester_info ORDER BY class_name]
    ([ordered = false]: without the ORDER BY clause) *)
| SClasses (ordered : bool)
(** [SELECT DISTINCT semester ... WHERE class_name=$1 ORDER BY semester] *)
| SSemesters (ordered : bool) (cls : option string)
(** [SELECT DISTINCT section ... WHERE class_name=$1 AND semester=$2
     AND section IS NOT NULL AND TRIM(section) <> ''] *)
| SSectionsTrim (cls : option string) (sem : jsval)
(** the same with [AND section!=''] *)
| SSectionsRaw (cls : option string) (sem : jsval)
(** [SELECT * ... WHERE TRIM(class_name)=$1 AND semester=$2
     AND TRIM(section)=$3 LIMIT 1] *)
| SDetailsSection (cls : option string) (sem : jsval) (sec : string)
(** [SELECT * ... WHERE TRIM(class_name)=$1 AND semester=$2
     AND (section IS NULL OR TRIM(section)='') LIMIT 1] *)
| SDetailsNoSection (cls : option string) (sem : jsval)
(** [INSERT INTO class_semester_info (...) VALUES ($1,...,$10)] *)
| SInsert (vals : Vals) (syllabus : option string) (photo : option string)
(** [SELECT id, class_name, semester, section, mentor_name, designation
     ... ORDER BY class_name, semester] *)
| SRecords
(** [UPDATE class_semester_info SET class_name=$1, ..., timetable_link=$8
     WHERE id=$9] *)
| SUpdate (vals : Vals) (rid : jsval)
(** [DELETE FROM class_semester_info WHERE id=$1] *)
| SDelete (rid : jsval).

(** Results: the rows of a one-column SELECT, whole rows, or the number of
    rows affected. *)
Inductive qres :=
| RStrs (l : list (option string))
| RInts (l : list (option Z))
| RRows (l : list Row)
| RCount (n : nat).

Inductive outcome (A : Type) :=
| Done (a : A)
| Fault.
Arguments Done {A} a.
Arguments Fault {A}.

Definition set_vals (vals : Vals) (sem : option Z) (r : Row) : Row :=
  {| id := id r;
     class_name := v_class_name vals;
     semester := sem;
     section := v_section vals;
     academic_year := v_academic_year vals;
     mentor_name := v_mentor_name vals;
     designation := v_designation vals;
     contact := v_contact vals;
     timetable_link := v_timetable_link vals;
     syllabus_link := syllabus_link r;
     mentor_photo := mentor_photo r |}.

Definition with_table (db : Db) (t : list Row) (nid : Z) : Db :=
  {| table := t; next_id := nid; online := online db;
     coerce_other := coerce_other db; admits := admits db |}.

Definition id_is (rid : option Z) (r : Row) : option bool :=
  sql_eq_int (Some (id r)) rid.

Definition matches (p : Row -> option bool) (r : Row) : bool :=
  match p r with Some true => true | _ => false end.

(** One statement against the table. The list order is the scan order; an
    inserted row is placed last and an updated row stays in place, where a
    real engine may place either anywhere in its heap (so no property below
    about an insert or an update depends on positions). A failed statement
    leaves the store as it was; the identity value a rejected INSERT draws
    from the sequence is not tracked (no property below claims
    the counter staying put after a failure). *)
Definition exec (db : Db) (s : stmt) : outcome (Db * qres) :=
  if negb (online db) then Fault else
  let t := table db in
  match s with
  | SClasses ordered =>
      let vs := distinct opt_str_dec (map class_name t) in
      Done (db, RStrs (if ordered then sort text_le vs else vs))
  | SSemesters ordered cls =>
      let rows := where_ (fun r => sql_eq_str (class_name r) cls) t in
      let vs := distinct opt_Z_dec (map semester rows) in
      Done (db, RInts (if ordered then sort int_le vs else vs))
  | SSectionsTrim cls sem =>
      match bind_int db sem with
      | None => Fault
      | Some n =>
          let rows := where_ (fun r =>
            sql_and (sql_and (sql_and (sql_eq_str (class_name r) cls)
                                      (sql_eq_int (semester r) n))
                             (sql_not (is_null (section r))))
                    (sql_not (sql_eq_str (TRIM (section r)) (Some "")))) t in
          Done (db, RStrs (distinct opt_str_dec (map section rows)))
      end
  | SSectionsRaw cls sem =>
      match bind_int db sem with
      | None => Fault
      | Some n =>
          let rows := where_ (fun r =>
            sql_and (sql_and (sql_and (sql_eq_str (class_name r) cls)
                                      (sql_eq_int (semester r) n))
                             (sql_not (is_null (section r))))
                    (sql_not (sql_eq_str (section r) (Some "")))) t in
          Done (db, RStrs (distinct opt_str_dec (map section rows)))
      end
  | SDetailsSection cls sem sec =>
      match bind_int db sem with
      | None => Fault
      | Some n =>
          let rows := where_ (fun r =>
            sql_and (sql_and (sql_eq_str (TRIM (class_name r)) cls)
                             (sql_eq_int (semester r) n))
                    (sql_eq_str (TRIM (section r)) (Some sec))) t in
          Done (db, RRows (firstn 1 rows))
      end
  | SDetailsNoSection cls sem =>
      match bind_int db sem with
      | None => Fault
      | Some n =>
          let rows := where_ (fun r =>
            sql_and (sql_and (sql_eq_str (TRIM (class_name r)) cls)
                             (sql_eq_int (semester r) n))
                    (sql_or (is_null (section r))
                            (sql_eq_str (TRIM (section r)) (Some "")))) t in
          Done (db, RRows (firstn 1 rows))
      end
  | SInsert vals syl photo =>
      match bind_int db (v_semester vals) with
      | None => Fault
      | Some n =>
          let r := {| id := next_id db;
                      class_name := v_class_name vals;
                      semester := n;
                      section := v_section vals;
                      academic_year := v_academic_year vals;
                      mentor_name := v_mentor_name vals;
                      designation := v_designation vals;
                      contact := v_contact vals;
                      timetable_link := v_timetable_link vals;
                      syllabus_link := syl;
                      mentor_photo := photo |} in
          if admits db r
          then Done (with_table db (t ++ [r]) (Z.succ (next_id db)), RCount 1)
          else Fault
      end
  | SRecords => Done (db, RRows (sort class_sem_le t))
  | SUpdate vals rid =>
      match bind_int db (v_semester vals), bind_int db rid with
      | Some n, Some k =>
          let hit := matches (id_is k) in
          let t' := map (fun r => if hit r then set_vals vals n r else r) t in
          if forallb (fun r => if hit r then admits db r else true) t'
          then Done (with_table db t' (next_id db),
                     RCount (List.length (filter hit t)))
          else Fault
      | _, _ => Fault
      end
  | SDelete rid =>
      match bind_int db rid with
      | None => Fault
      | Some k =>
          let hit := matches (id_is k) in
          Done (with_table db (filter (fun r => negb (hit r)) t) (next_id db),
                RCount (List.length (filter hit t)))
      end
  end.

End Store.

(* ================================================================== *)
(** ** The Express application *)
Module Server.
Import Js Store.

Inductive variant := Postgres | MySQL.

Inductive json :=
| JSONNull
| JSONStr (s : string)
| JSONInt (z : Z)
| JSONArr (l : list json)
| JSONObj (kv : list (string * json)).

Definition jtext (a : option string) : json :=
  match a with Some s => JSONStr s | None => JSONNull end.
Definition jint (a : option Z) : json :=
  match a with Some z => JSONInt z | None => JSONNull end.

(** A row as sent by [res.json] for [SELECT *]. *)
Definition row_json (r : Row) : json :=
  JSONObj [("id", JSONInt (id r)); ("class_name", jtext (class_name r));
           ("semester", jint (semester r)); ("section", jtext (section r));
           ("academic_year", jtext (academic_year r));
           ("mentor_name", jtext (mentor_name r));
           ("designation", jtext (designation r));
           ("contact", jtext (contact r));
           ("timetable_link", jtext (timetable_link r));
           ("syllabus_link", jtext (syllabus_link r));
           ("mentor_photo", jtext (mentor_photo r))].

(** The projection of [GET /api/admin/records]. *)
Definition summary_json (r : Row) : json :=
  JSONObj [("id", JSONInt (id r)); ("class_name", jtext (class_name r));
           ("semester", jint (semester r)); ("section", jtext (section r));
           ("mentor_name", jtext (mentor_name r));
           ("designation", jtext (designation r))].

(** A response: a JSON body, or the page of Express's default error handler
    (for an exception thrown synchronously by a callback-style handler). *)
Inductive Payload := PJson (j : json) | PErrorPage.
Record Response := mkResp { status : Z; payload : Payload }.

Definition ok (j : json) : Response := mkResp 200 (PJson j).
Definition fail (j : json) : Response := mkResp 500 (PJson j).
Definition message (m : string) : json := JSONObj [("message", JSONStr m)].
Definition error (m : string) : json := JSONObj [("error", JSONStr m)].

(** An uploaded file: its original name and the value of [Date.now()] when
    multer names it. *)
Record Upload := mkUpload { originalname : string; uploaded_at : Z }.

(** The multipart body of [POST /api/admin/add]. *)
Record AddBody := mkAddBody {
  a_class_name : mval; a_semester : mval; a_section : mval;
  a_academic_year : mval; a_mentor_name : mval; a_designation : mval;
  a_contact : mval; a_timetable_link : mval
}.

(** The JSON body of [PUT /api/admin/update/:id]. *)
Record UpdBody := mkUpdBody {
  u_class_name : jsval; u_semester : jsval; u_section : jsval;
  u_academic_year : jsval; u_mentor_name : jsval; u_designation : jsval;
  u_contact : jsval; u_timetable_link : jsval
}.

(** Requests; query parameters are absent or a single string. *)
Inductive Request :=
| GetClasses
| GetSemesters (cls : option string)
| GetSections (cls sem : option string)
| GetDetails (cls sem sec : option string)
| PostAdd (body : AddBody) (syllabus mentor_photo_file : option Upload)
| GetRecords
| PutUpdate (rid : string) (body : UpdBody)
| DeleteRecord (rid : string).

(** The server's state: the store, the files written under the upload
    directories (directory, file name), and [__dirname]. *)
Record State := mkState {
  store : Db;
  disk : list (string * string);
  dirname : string
}.

Definition with_store (st : State) (db : Db) : State :=
  {| store := db; disk := disk st; dirname := dirname st |}.

(** multer [diskStorage]: [destination] chooses the directory by field name
    ([None]: the callback is never called), [filename] the stored name. *)
Definition destination (dir fieldname : string) : option string :=
  if String.eqb fieldname "syllabus" then Some (dir ++ "/uploads/syllabus")
  else if String.eqb fieldname "mentor_photo"
  then Some (dir ++ "/uploads/mentors")
  else None.

Definition filename (f : Upload) : string :=
  Z_to_dec (uploaded_at f) ++ "_" ++ replace_ws_runs false (originalname f).

(** multer writes the file of field [fieldname], if one was sent. The upload
    directories are assumed to exist: when one is missing, multer fails with
    ENOENT, removes the files it stored and Express answers 500 before the
    handler runs -- a case not modelled, on which no property below about
    the files depends. *)
Definition store_upload (st : State) (fieldname : string) (f : option Upload)
    : State :=
  match f with
  | None => st
  | Some u =>
      match destination (dirname st) fieldname with
      | Some d =>
          {| store := store st; disk := disk st ++ [(d, filename u)];
             dirname := dirname st |}
      | None => st
      end
  end.

(** Insert values of the add route. [None]: a TypeError is thrown. *)
Definition add_vals (v : variant) (b : AddBody) : option Vals :=
  match v with
  | Postgres =>
      (* String(x || "").trim() *)
      let txt x := trim (if mtruthy x then mString x else "") in
      Some {| v_class_name := Some (txt (a_class_name b));
              v_semester := JNum (mNumber (a_semester b));
              v_section := Some (txt (a_section b));
              v_academic_year := Some (txt (a_academic_year b));
              v_mentor_name := Some (txt (a_mentor_name b));
              v_designation := Some (txt (a_designation b));
              v_contact := Some (txt (a_contact b));
              (* timetable_link ? String(timetable_link).trim() : null *)
              v_timetable_link :=
                if mtruthy (a_timetable_link b)
                then Some (trim (mString (a_timetable_link b))) else None |}
  | MySQL =>
      let t x := opt_trim (mval_to_jsval x) in
      match t (a_class_name b), opt_trim_or_empty (mval_to_jsval (a_section b)),
            t (a_academic_year b), t (a_mentor_name b), t (a_designation b),
            t (a_contact b), t (a_timetable_link b) with
      | Some c, Some sec, Some ay, Some mn, Some d, Some ct, Some tl =>
          Some {| v_class_name := c; v_semester := mval_to_jsval (a_semester b);
                  v_section := Some sec; v_academic_year := ay;
                  v_mentor_name := mn; v_designation := d; v_contact := ct;
                  v_timetable_link := tl |}
      | _, _, _, _, _, _, _ => None
      end
  end.

(** Update values; the two variants evaluate the same expressions. *)
Definition upd_vals (b : UpdBody) : option Vals :=
  match opt_trim (u_class_name b), opt_trim_or_empty (u_section b),
        opt_trim (u_academic_year b), opt_trim (u_mentor_name b),
        opt_trim (u_designation b), opt_trim (u_contact b),
        opt_trim (u_timetable_link b) with
  | Some c, Some sec, Some ay, Some mn, Some d, Some ct, Some tl =>
      Some {| v_class_name := c; v_semester := u_semester b;
              v_section := Some sec; v_academic_year := ay;
              v_mentor_name := mn; v_designation := d; v_contact := ct;
              v_timetable_link := tl |}
  | _, _, _, _, _, _, _ => None
  end.

(** A TypeError in a handler: caught by the try/catch of the PostgreSQL
    variant, handled by Express in the MySQL variant. *)
Definition thrown (v : variant) (m : string) : Response :=
  match v with
  | Postgres => fail (error m)
  | MySQL => mkResp 500 PErrorPage
  end.

Definition query_param (p : option string) : jsval :=
  match p with Some s => JStr s | None => JUndefined end.

(** The statement of [GET /api/details]. *)
Definition details_stmt (cls sem sec : option string) : stmt :=
  let className := option_map trim cls in
  let semester := JNum (match sem with Some s => Number_of_string s
                                     | None => NaN end) in
  let section := trim (match sec with Some s => s | None => "" end) in
  if String.eqb section "" then SDetailsNoSection className semester
  else SDetailsSection className semester section.

Definition strs (q : qres) : list (option string) :=
  match q with RStrs l => l | _ => [] end.
Definition ints (q : qres) : list (option Z) :=
  match q with RInts l => l | _ => [] end.
Definition rows (q : qres) : list Row :=
  match q with RRows l => l | _ => [] end.

(** Run one statement: on success the store is updated and [on_ok] builds
    the body; a fault gives status 500 with [on_fault]. *)
Definition respond (st : State) (s : stmt) (on_ok : qres -> json)
    (on_fault : json) : State * Response :=
  match exec (store st) s with
  | Done (db', q) => (with_store st db', ok (on_ok q))
  | Fault => (st, fail on_fault)
  end.

Definition ordered (v : variant) : bool :=
  match v with Postgres => true | MySQL => false end.

Definition handle (v : variant) (st : State) (req : Request)
    : State * Response :=
  match req with
  | GetClasses =>
      respond st (SClasses (ordered v))
        (fun q => JSONArr (map (fun c => JSONObj [("class_name", jtext c)])
                               (strs q)))
        (JSONArr [])
  | GetSemesters cls =>
      respond st (SSemesters (ordered v) cls)
        (fun q => JSONArr (map (fun s => JSONObj [("semester", jint s)])
                               (ints q)))
        (JSONArr [])
  | GetSections cls sem =>
      let s := match v with
               | Postgres => SSectionsTrim cls (query_param sem)
               | MySQL => SSectionsRaw cls (query_param sem)
               end in
      respond st s
        (fun q => JSONArr (map (fun s => JSONObj [("section", jtext s)])
                               (strs q)))
        (JSONArr [])
  | GetDetails cls sem sec =>
      respond st (details_stmt cls sem sec)
        (fun q => match rows q with [] => JSONNull | r :: _ => row_json r end)
        JSONNull
  | PostAdd b syl photo =>
      let st1 := store_upload (store_upload st "syllabus" syl)
                   "mentor_photo" photo in
      let syllabusPath :=
        option_map (fun f => "/uploads/syllabus/" ++ filename f) syl in
      let photoPath :=
        option_map (fun f => "/uploads/mentors/" ++ filename f) photo in
      match add_vals v b with
      | Some vals =>
          respond st1 (SInsert vals syllabusPath photoPath)
            (fun _ => message "Record added successfully")
            (error "Insert failed")
      | None => (st1, thrown v "Insert failed")
      end
  | GetRecords =>
      respond st SRecords (fun q => JSONArr (map summary_json (rows q)))
        (JSONArr [])
  | PutUpdate rid b =>
      match upd_vals b with
      | Some vals =>
          respond st (SUpdate vals (JStr rid))
            (fun _ => message "Record updated successfully")
            (error "Update failed")
      | None => (st, thrown v "Update failed")
      end
  | DeleteRecord rid =>
      respond st (SDelete (JStr rid))
        (fun _ => message "Record deleted successfully")
        (error "Delete failed")
  end.

(** The statement [handle] sends to the store for a request ([None]: a
    TypeError is thrown before any statement is sent). *)
Definition issued (v : variant) (req : Request) : option stmt :=
  match req with
  | GetClasses => Some (SClasses (ordered v))
  | GetSemesters cls => Some (SSemesters (ordered v) cls)
  | GetSections cls sem =>
      Some (match v with
            | Postgres => SSectionsTrim cls (query_param sem)
            | MySQL => SSectionsRaw cls (query_param sem)
            end)
  | GetDetails cls sem sec => Some (details_stmt cls sem sec)
  | PostAdd b syl photo =>
      option_map (fun vals =>
          SInsert vals
            (option_map (fun f => "/uploads/syllabus/" ++ filename f) syl)
            (option_map (fun f => "/uploads/mentors/" ++ filename f) photo))
        (add_vals v b)
  | GetRecords => Some SRecords
  | PutUpdate rid b => option_map (fun vals => SUpdate vals (JStr rid)) (upd_vals b)
  | DeleteRecord rid => Some (SDelete (JStr rid))
  end.

End Server.

(* ================================================================== *)
(** ** Properties as the specification words them *)
Module Spec.
Import Js Store Server.

(** The details key: trimmed class name, semester, and section (or "no
    section"), where [stored_trim] is the trimming applied to the stored
    values. *)
Definition key_match (stored_trim : string -> string) (cls : string) (n : Z)
    (sec : string) (r : Row) : bool :=
  match class_name r with
  | Some c => String.eqb (stored_trim c) (trim cls)
  | None => false
  end &&
  match semester r with Some m => Z.eqb m n | None => false end &&
  (let want := trim sec in
   if String.eqb want "" then
     match section r with
     | None => true
     | Some s => String.eqb (stored_trim s) ""
     end
   else
     match section r with
     | Some s => String.eqb (stored_trim s) want
     | None => false
     end).

(** "replaced by underscores" read character by character. *)
Fixpoint replace_each_ws (s : string) : string :=
  match s with
  | EmptyString => EmptyString
  | String c s' =>
      String (if is_ws c then "_"%char else c) (replace_each_ws s')
  end.

Definition all_ws (s : string) : bool :=
  forallb is_ws (list_ascii_of_string s).

Definition starts_non_ws (s : string) : Prop :=
  match s with EmptyString => True | String c _ => is_ws c = false end.

(** [t] is [s] with every maximal run of whitespace replaced by a single
    underscore and every other character kept. *)
Inductive ws_runs_replaced : string -> string -> Prop :=
| wr_nil : ws_runs_replaced "" ""
| wr_char c s t :
    is_ws c = false -> ws_runs_replaced s t ->
    ws_runs_replaced (String c s) (String c t)
| wr_run w s t :
    w <> "" -> all_ws w = true -> starts_non_ws s -> ws_runs_replaced s t ->
    ws_runs_replaced (w ++ s) (String "_" t).



(** A row of the pair ([cls], [n]) carrying a section [s] with [f s <> ""]. *)
Definition sec_ok (f : string -> string) (cls : string) (n : Z) (r : Row)
    : bool :=
  match class_name r with Some c => String.eqb c cls | None => false end &&
  match semester r with Some m => Z.eqb m n | None => false end &&
  match section r with Some s => negb (String.eqb (f s) "") | None => false end.

(** Leading whitespace of [s], and the rest. *)
Fixpoint split_ws (s : string) : string * string :=
  match s with
  | EmptyString => (EmptyString, EmptyString)
  | String c s' =>
      if is_ws c then let (w, r) := split_ws s' in (String c w, r)
      else (EmptyString, s)
  end.

Fixpoint somes {A} (l : list (option A)) : list A :=
  match l with
  | [] => []
  | Some x :: l' => x :: somes l'
  | None :: l' => somes l'
  end.

End Spec.

(* ================================================================== *)
(** ** Shapes of written values *)
Module Shapes.
Import Js Store Server.

(** How a text column is written from a multipart field: its value when the
    field is missing, when it is the empty string, and the trimmed input
    otherwise. *)
Definition text_col (m : mval) (col missing empty : option string) : Prop :=
  (m = MMissing -> col = missing) /\ (m = MStr "" -> col = empty) /\
  (forall s, m = MStr s -> s <> "" -> col = Some (trim s)).

(** A JSON value other than a string, [undefined] or [null]: it has no
    [trim] method. *)
Definition not_text (j : jsval) : Prop :=
  match j with JUndefined | JNull | JStr _ => False | _ => True end.

(** [undefined] or [null]. *)
Definition nullish (j : jsval) : Prop := j = JUndefined \/ j = JNull.

(** How an update writes a text column from a JSON field: NULL for
    [undefined] or [null], the trimmed text for a string. *)
Definition upd_col (j : jsval) (col : option string) : Prop :=
  (nullish j -> col = None) /\ (forall s, j = JStr s -> col = Some (trim s)).

(** The files multer writes for the two upload fields: (directory, name). *)
Definition written_files (dir : string) (syl ph : option Upload)
    : list (string * string) :=
  match syl with
  | Some u => [(dir ++ "/uploads/syllabus", filename u)]
  | None => []
  end ++
  match ph with
  | Some u => [(dir ++ "/uploads/mentors", filename u)]
  | None => []
  end.

End Shapes.

(* ================================================================== *)
(** ** Concrete stores used by the witnesses and counterexamples *)
Module Fixtures.
Import Js Store Server.

(** A store that reads decimal text as an integer for an integer column
    and rejects anything else that is not an integer. *)
Definition text_coerce (v : jsval) : option (option Z) :=
  match v with
  | JStr s =>
      match jsnum_int (Number_of_string s) with
      | Some z => Some (Some z)
      | None => None
      end
  | _ => None
  end.

Definition db_of (t : list Row) (nid : Z) : Db :=
  {| table := t; next_id := nid; online := true;
     coerce_other := text_coerce; admits := fun _ => true |}.

Definition st_of (t : list Row) (nid : Z) : State :=
  {| store := db_of t nid; disk := []; dirname := "/srv/portal" |}.

Definition row (i : Z) (c : string) (sem : Z) (sec : option string) : Row :=
  {| id := i; class_name := Some c; semester := Some sem; section := sec;
     academic_year := Some "2024-25"; mentor_name := Some "A";
     designation := Some "Professor"; contact := Some "555";
     timetable_link := None; syllabus_link := None; mentor_photo := None |}.

Definition add_body (c sem sec : string) : AddBody :=
  {| a_class_name := MStr c; a_semester := MStr sem; a_section := MStr sec;
     a_academic_year := MMissing; a_mentor_name := MStr "A";
     a_designation := MStr "Professor"; a_contact := MStr "555";
     a_timetable_link := MMissing |}.

Definition upd_body (c : string) (sem : Z) (sec : string) : UpdBody :=
  {| u_class_name := JStr c; u_semester := JNum (Finite (inject_Z sem));
     u_section := JStr sec; u_academic_year := JUndefined;
     u_mentor_name := JStr "A"; u_designation := JStr "Professor";
     u_contact := JStr "555"; u_timetable_link := JUndefined |}.

Definition details_store : State :=
  st_of [row 1 "CS101" 3 (Some "B"); row 2 " CS101 " 3 (Some " A ");
         row 3 "CS101" 3 None] 4.

Definition tab : string := String "009"%char "".

Definition sections_store : State :=
  st_of [row 1 "CS101" 3 (Some "A"); row 2 "CS101" 3 (Some "");
         row 3 "CS101" 3 None; row 4 "CS101" 3 (Some "A");
         row 5 "CS101" 4 (Some "B")] 6.

Definition notes : Upload :=
  {| originalname := "unit  1 notes.pdf"; uploaded_at := 1700000000000 |}.

(** Scan order: CS201 first; CS101 in semesters 2, 1, 2. *)
Definition ba_store : State :=
  st_of [row 1 "CS201" 1 None; row 2 "CS101" 2 (Some "A");
         row 3 "CS101" 1 (Some "A"); row 4 "CS101" 2 (Some "B")] 5.


End Fixtures.

(* ================================================================== *)
(** ** Facts about the query evaluator *)
Module Facts.
Import Js Store Server.

Lemma where_filter (p : Row -> option bool) (q : Row -> bool) (t : list Row) :
  (forall r, matches p r = q r) -> where_ p t = filter q t.
Proof.
  intros H. unfold where_. induction t as [|r t IH]; simpl; [reflexivity|].
  specialize (H r). unfold matches in H. rewrite H, IH. reflexivity.
Qed.

Lemma in_distinct_from {A} (d : forall x y : A, {x = y} + {x <> y})
    (seen l : list A) (x : A) :
  In x (distinct_from d seen l) <-> In x l /\ ~ In x seen.
Proof.
  revert seen. induction l as [|y l IH]; intros seen; simpl.
  - tauto.
  - destruct (in_dec d y seen) as [Hy|Hy].
    + rewrite IH. split; [tauto|].
      intros [[<-|Hx] Hn]; [contradiction|tauto].
    + simpl. rewrite IH. simpl. split.
      * intros [<-|[Hx Hn]]; [tauto|]. split; [tauto|]. tauto.
      * intros [[<-|Hx] Hn]; [tauto|].
        destruct (d y x) as [->|Hne]; [tauto|].
        right. split; [exact Hx|]. intros [He|He]; [congruence|tauto].
Qed.

Lemma NoDup_distinct_from {A} (d : forall x y : A, {x = y} + {x <> y})
    (seen l : list A) : NoDup (distinct_from d seen l).
Proof.
  revert seen. induction l as [|y l IH]; intros seen; simpl.
  - constructor.
  - destruct (in_dec d y seen); [apply IH|].
    constructor; [|apply IH].
    rewrite in_distinct_from. simpl. tauto.
Qed.

Lemma in_distinct {A} (d : forall x y : A, {x = y} + {x <> y}) l x :
  In x (distinct d l) <-> In x l.
Proof. unfold distinct. rewrite in_distinct_from. simpl. tauto. Qed.

Lemma NoDup_distinct {A} (d : forall x y : A, {x = y} + {x <> y}) l :
  NoDup (distinct d l).
Proof. apply NoDup_distinct_from. Qed.

Section Sorting.
Context {A : Type} (le : A -> A -> bool).
Hypothesis le_total : forall a b, le a b = false -> le b a = true.

Lemma insert_perm x l : Permutation (insert le x l) (x :: l).
Proof.
  induction l as [|y l IH]; simpl; [reflexivity|].
  destruct (le x y); [reflexivity|].
  rewrite IH. apply perm_swap.
Qed.

Lemma sort_perm l : Permutation (sort le l) l.
Proof.
  induction l as [|x l IH]; simpl; [reflexivity|].
  rewrite insert_perm, IH. reflexivity.
Qed.

Lemma insert_sorted x l :
  Sorted (fun a b => le a b = true) l ->
  Sorted (fun a b => le a b = true) (insert le x l).
Proof.
  induction 1 as [|y l Hs IH Hh]; simpl.
  - repeat constructor.
  - destruct (le x y) eqn:Hxy.
    + constructor; [constructor; assumption|constructor; exact Hxy].
    + constructor; [exact IH|].
      apply le_total in Hxy.
      destruct l as [|z l]; simpl; [constructor; exact Hxy|].
      destruct (le x z); constructor; [exact Hxy|].
      inversion Hh; assumption.
Qed.

Lemma sort_sorted l : Sorted (fun a b => le a b = true) (sort le l).
Proof.
  induction l as [|x l IH]; simpl; [constructor|].
  apply insert_sorted, IH.
Qed.

End Sorting.

Lemma text_le_total a b : text_le a b = false -> text_le b a = true.
Proof.
  destruct a as [x|], b as [y|]; simpl; try discriminate; [|reflexivity].
  intros H. destruct (String.leb_total x y) as [E|E]; [congruence|exact E].
Qed.

Lemma int_le_total a b : int_le a b = false -> int_le b a = true.
Proof.
  destruct a as [x|], b as [y|]; simpl; try discriminate; [|reflexivity].
  intros H. apply Z.leb_gt in H. apply Z.leb_le. lia.
Qed.

Lemma where_none (p : Row -> option bool) (t : list Row) :
  (forall r, matches p r = false) -> where_ p t = [].
Proof.
  intros H. induction t as [|r t IH]; [reflexivity|]. simpl.
  specialize (H r). unfold matches in H. rewrite H. exact IH.
Qed.

Lemma with_store_same st : with_store st (store st) = st.
Proof. destruct st; reflexivity. Qed.

End Facts.

(* ================================================================== *)
(** ** The claims *)
Module Claims.
Import Js Store Server Facts Fixtures.

Lemma details_where_section cls n sec r :
  trim sec <> "" ->
  matches (fun r =>
    sql_and (sql_and (sql_eq_str (TRIM (class_name r)) (Some (trim cls)))
                     (sql_eq_int (semester r) (Some n)))
            (sql_eq_str (TRIM (section r)) (Some (trim sec)))) r
  = Spec.key_match sql_trim cls n sec r.
Proof.
  intros Hs. unfold matches, Spec.key_match.
  apply String.eqb_neq in Hs. rewrite Hs.
  destruct r as [i c m s ay mn d ct tl sl mp]; simpl.
  destruct c as [c|], m as [m|], s as [s|]; simpl;
    repeat match goal with |- context [String.eqb ?a ?b] =>
             destruct (String.eqb a b) end;
    try destruct (Z.eqb m n); reflexivity.
Qed.

Lemma details_where_no_section cls n sec r :
  trim sec = "" ->
  matches (fun r =>
    sql_and (sql_and (sql_eq_str (TRIM (class_name r)) (Some (trim cls)))
                     (sql_eq_int (semester r) (Some n)))
            (sql_or (is_null (section r))
                    (sql_eq_str (TRIM (section r)) (Some "")))) r
  = Spec.key_match sql_trim cls n sec r.
Proof.
  intros Hs. unfold matches, Spec.key_match. rewrite Hs. simpl.
  destruct r as [i c m s ay mn d ct tl sl mp]; simpl.
  destruct c as [c|], m as [m|], s as [s|]; simpl;
    repeat match goal with |- context [String.eqb ?a ?b] =>
             destruct (String.eqb a b) end;
    try destruct (Z.eqb m n); reflexivity.
Qed.




Lemma somes_map {A} (l : list (option A)) :
  (forall x, In x l -> x <> None) -> map Some (Spec.somes l) = l.
Proof.
  induction l as [|[x|] l IH]; intros H; simpl; [reflexivity| |].
  - rewrite IH; [reflexivity|]. intros y Hy. apply H. right. exact Hy.
  - exfalso. apply (H None); [left|]; reflexivity.
Qed.

Lemma sql_trim_empty : sql_trim "" = "".
Proof. reflexivity. Qed.

Lemma sections_where (f : string -> string) cls n r :
  matches (fun r =>
    sql_and (sql_and (sql_and (sql_eq_str (class_name r) (Some cls))
                              (sql_eq_int (semester r) (Some n)))
                     (sql_not (is_null (section r))))
            (sql_not (sql_eq_str (option_map f (section r)) (Some "")))) r
  = Spec.sec_ok f cls n r.
Proof.
  unfold matches, Spec.sec_ok.
  destruct r as [i c m s ay mn d ct tl sl mp]; simpl.
  destruct c as [c|], m as [m|], s as [s|]; simpl;
    repeat match goal with |- context [String.eqb ?a ?b] =>
             destruct (String.eqb a b) end;
    try destruct (Z.eqb m n); reflexivity.
Qed.

(** The distinct sections of the rows accepted by [sec_ok f]. *)
Lemma sections_result (f : string -> string) (cls : string) (n : Z)
    (t : list Row) :
  let l := distinct opt_str_dec (map section (filter (Spec.sec_ok f cls n) t)) in
  map Some (Spec.somes l) = l /\ NoDup (Spec.somes l) /\
  (forall x, In x (Spec.somes l) <->
     exists r, In r t /\ class_name r = Some cls /\ semester r = Some n /\
               section r = Some x /\ f x <> "").
Proof.
  intros l.
  assert (Hin : forall o, In o l <->
            exists r, In r t /\ Spec.sec_ok f cls n r = true /\ section r = o).
  { intros o. unfold l. rewrite in_distinct, in_map_iff.
    split; intros [r [H1 H2]]; exists r.
    - apply filter_In in H2. tauto.
    - split; [tauto|]. apply filter_In. tauto. }
  assert (Hok : forall r, Spec.sec_ok f cls n r = true <->
            class_name r = Some cls /\ semester r = Some n /\
            exists x, section r = Some x /\ f x <> "").
  { intros r. unfold Spec.sec_ok.
    destruct (class_name r) as [c|], (semester r) as [m|], (section r) as [x|];
      simpl; rewrite ?andb_true_iff, ?andb_false_r;
      split; intros H; try discriminate;
      repeat match goal with
             | H : _ /\ _ |- _ => destruct H
             | H : exists _, _ |- _ => destruct H
             | H : Some _ = Some _ |- _ => injection H as H
             | H : None = Some _ |- _ => discriminate H
             end; subst;
      try (rewrite String.eqb_eq in *); try (rewrite Z.eqb_eq in *);
      try (rewrite negb_true_iff, String.eqb_neq in *); subst;
      repeat split; try reflexivity; try assumption;
      try (eexists; split; [reflexivity|assumption]);
      try (apply String.eqb_refl); try (apply Z.eqb_refl);
      try (apply negb_true_iff, String.eqb_neq; assumption);
      try (apply andb_true_iff; split); try discriminate. }
  assert (Hsome : map Some (Spec.somes l) = l).
  { apply somes_map. intros o Ho. apply Hin in Ho.
    destruct Ho as [r [_ [Hr <-]]]. apply Hok in Hr.
    destruct Hr as [_ [_ [x [-> _]]]]. discriminate. }
  split; [exact Hsome|]. split.
  - apply (NoDup_map_inv Some). rewrite Hsome. apply NoDup_distinct.
  - intros x. split.
    + intros Hx. assert (Hx' : In (Some x) l)
        by (rewrite <- Hsome; apply in_map; exact Hx).
      apply Hin in Hx'. destruct Hx' as [r [Hr [Hk Hs]]].
      apply Hok in Hk. destruct Hk as [Hc [Hm [y [Hy Hf]]]].
      rewrite Hs in Hy. injection Hy as ->.
      exists r. tauto.
    + intros [r [Hr [Hc [Hm [Hs Hf]]]]].
      assert (Hx' : In (Some x) l).
      { apply Hin. exists r. split; [exact Hr|]. split; [|exact Hs].
        apply Hok. split; [exact Hc|]. split; [exact Hm|].
        exists x. split; assumption. }
      rewrite <- Hsome in Hx'. apply in_map_iff in Hx'.
      destruct Hx' as [y [Hy Hy']]. injection Hy as ->. exact Hy'.
Qed.

Lemma sections_where_raw cls n r :
  matches (fun r =>
    sql_and (sql_and (sql_and (sql_eq_str (class_name r) (Some cls))
                              (sql_eq_int (semester r) (Some n)))
                     (sql_not (is_null (section r))))
            (sql_not (sql_eq_str (section r) (Some "")))) r
  = Spec.sec_ok (fun x => x) cls n r.
Proof.
  rewrite <- (sections_where (fun x => x)). unfold matches.
  destruct (section r); reflexivity.
Qed.

Lemma sql_trim_nonempty x : sql_trim x <> "" -> x <> "".
Proof. intros H ->. apply H. reflexivity. Qed.

(** The sections lookup of both variants. For a class [cls] and a semester
    text [sem] that the store reads as the integer [n], it answers 200 with a list of
    section strings, without duplicates; each comes from a record of the
    pair and is neither NULL nor empty -- in the PostgreSQL variant not made
    of spaces only either -- and every section of a record of the pair that
    is not empty after trimming spaces is listed. Hence a pair whose records
    only have NULL or empty (PostgreSQL: or space-only) sections gives an
    empty list. Sections made of other whitespace (tabs, newlines) are
    listed. *)
Theorem sections_lookup (v : variant) (st : State) (cls sem : string) (n : Z) :
  online (store st) = true ->
  coerce_other (store st) (JStr sem) = Some (Some n) ->
  exists out : list string,
    handle v st (GetSections (Some cls) (Some sem)) =
      (st, ok (JSONArr (map (fun s => JSONObj [("section", JSONStr s)]) out)))
    /\ NoDup out
    /\ (forall x, In x out ->
          exists r, In r (table (store st)) /\ class_name r = Some cls /\
                    semester r = Some n /\ section r = Some x /\ x <> "")
    /\ (forall r x, In r (table (store st)) -> class_name r = Some cls ->
          semester r = Some n -> section r = Some x -> sql_trim x <> "" ->
          In x out)
    /\ (v = Postgres -> forall x, In x out -> sql_trim x <> "").
Proof.
  intros Hon Hsem.
  set (f := match v with Postgres => sql_trim | MySQL => fun x : string => x end).
  destruct (sections_result f cls n (table (store st)))
    as [Hsome [Hnd Hin]].
  set (l := distinct opt_str_dec
              (map section (filter (Spec.sec_ok f cls n) (table (store st))))) in *.
  assert (Hh : handle v st (GetSections (Some cls) (Some sem)) =
               (st, ok (JSONArr (map (fun s => JSONObj [("section", jtext s)]) l)))).
  { unfold handle, respond, exec. rewrite Hon. simpl negb. cbv iota.
    destruct v; unfold query_param, bind_int; rewrite Hsem; cbv iota.
    - rewrite (where_filter _ (Spec.sec_ok sql_trim cls n))
        by (intros r; apply (sections_where sql_trim)).
      rewrite with_store_same; reflexivity.
    - rewrite (where_filter _ (Spec.sec_ok (fun x => x) cls n))
        by (intros r; apply sections_where_raw).
      rewrite with_store_same; reflexivity. }
  exists (Spec.somes l). split; [|split; [exact Hnd|split; [|split]]].
  - rewrite Hh. rewrite <- Hsome at 1. rewrite map_map. reflexivity.
  - intros x Hx. apply Hin in Hx. destruct Hx as [r [Hr [Hc [Hm [Hs Hf]]]]].
    exists r. repeat split; try assumption.
    destruct v; simpl in Hf; [apply sql_trim_nonempty|]; exact Hf.
  - intros r x Hr Hc Hm Hs Hf. apply Hin. exists r. repeat split; try assumption.
    destruct v; simpl; [exact Hf|apply sql_trim_nonempty; exact Hf].
  - intros -> x Hx. apply Hin in Hx. destruct Hx as [r [_ [_ [_ [_ Hf]]]]].
    exact Hf.
Qed.

Lemma sections_lookup_witness :
  online (store sections_store) = true /\
  coerce_other (store sections_store) (JStr "3") = Some (Some 3%Z) /\
  exists out : list string,
    handle MySQL sections_store (GetSections (Some "CS101") (Some "3")) =
      (sections_store,
       ok (JSONArr (map (fun s => JSONObj [("section", JSONStr s)]) out)))
    /\ NoDup out.
Proof.
  split; [reflexivity|]. split; [reflexivity|].
  destruct (sections_lookup MySQL sections_store "CS101" "3" 3 eq_refl eq_refl)
    as [out [H1 [H2 _]]].
  exists out. split; assumption.
Defined.

(** A section made of a tab is whitespace-only, yet the PostgreSQL sections
    lookup lists it ([TRIM] removes spaces only). *)
Lemma sections_tab_section_cex :
  trim tab = "" /\
  snd (handle Postgres (st_of [row 1 "CS101" 3 (Some tab)] 2)
         (GetSections (Some "CS101") (Some "3")))
  = ok (JSONArr [JSONObj [("section", JSONStr tab)]]).
Proof. split; vm_compute; reflexivity. Qed.

(** C2 fails in the MySQL variant: its sections query tests [section!='']
    without the [TRIM] of the PostgreSQL query and of its own details query.
    For a pair whose only record has a section of one space, the MySQL
    lookup lists that section while the PostgreSQL lookup answers the empty
    list, and the MySQL details lookup treats the same record as having no
    section. *)
Theorem sections_mysql_space_only :
  trim " " = "" /\
  snd (handle MySQL (st_of [row 1 "CS101" 3 (Some " ")] 2)
         (GetSections (Some "CS101") (Some "3")))
    = ok (JSONArr [JSONObj [("section", JSONStr " ")]]) /\
  snd (handle Postgres (st_of [row 1 "CS101" 3 (Some " ")] 2)
         (GetSections (Some "CS101") (Some "3")))
    = ok (JSONArr []) /\
  snd (handle MySQL (st_of [row 1 "CS101" 3 (Some " ")] 2)
         (GetDetails (Some "CS101") (Some "3") None))
    = ok (row_json (row 1 "CS101" 3 (Some " "))).
Proof. split; [|split; [|split]]; vm_compute; reflexivity. Qed.

(** The PostgreSQL variant lists the class names ([ORDER BY class_name]):
    each value of the column once, in ascending order (NULL last). *)
Lemma classes_postgres (st : State) :
  online (store st) = true ->
  exists out : list (option string),
    handle Postgres st GetClasses =
      (st, ok (JSONArr (map (fun c => JSONObj [("class_name", jtext c)]) out)))
    /\ NoDup out
    /\ Sorted (fun a b => text_le a b = true) out
    /\ (forall x, In x out <->
          exists r, In r (table (store st)) /\ class_name r = x).
Proof.
  intros Hon.
  set (l := distinct opt_str_dec (map class_name (table (store st)))).
  exists (sort text_le l).
  split; [|split; [|split]].
  - unfold handle, respond, exec. rewrite Hon. simpl negb. cbv iota.
    rewrite with_store_same. reflexivity.
  - eapply Permutation_NoDup; [symmetry; apply sort_perm|apply NoDup_distinct].
  - apply sort_sorted, text_le_total.
  - intros x. split; intros H.
    + apply (Permutation_in _ (sort_perm text_le l)) in H.
      apply in_distinct, in_map_iff in H. destruct H as [r [H1 H2]].
      exists r. tauto.
    + apply (Permutation_in _ (Permutation_sym (sort_perm text_le l))).
      apply in_distinct, in_map_iff. destruct H as [r [H1 H2]].
      exists r. tauto.
Qed.

(** The PostgreSQL variant lists the semesters of a class
    ([ORDER BY semester]): each value once, ascending (NULL last), none for
    a class without records. *)
Lemma semesters_postgres (st : State) (cls : string) :
  online (store st) = true ->
  exists out : list (option Z),
    handle Postgres st (GetSemesters (Some cls)) =
      (st, ok (JSONArr (map (fun s => JSONObj [("semester", jint s)]) out)))
    /\ NoDup out
    /\ Sorted (fun a b => int_le a b = true) out
    /\ (forall x, In x out <->
          exists r, In r (table (store st)) /\ class_name r = Some cls /\
                    semester r = x).
Proof.
  intros Hon.
  set (p := fun r : Row => sql_eq_str (class_name r) (Some cls)).
  set (l := distinct opt_Z_dec (map semester (where_ p (table (store st))))).
  exists (sort int_le l).
  split; [|split; [|split]].
  - unfold handle, respond, exec. rewrite Hon. simpl negb. cbv iota.
    rewrite with_store_same. reflexivity.
  - eapply Permutation_NoDup; [symmetry; apply sort_perm|apply NoDup_distinct].
  - apply sort_sorted, int_le_total.
  - assert (Hw : forall r, In r (where_ p (table (store st))) <->
                   In r (table (store st)) /\ class_name r = Some cls).
    { intros r. unfold where_, p. rewrite filter_In.
      destruct (class_name r) as [c|]; simpl; [|split; intros [_ H]; discriminate].
      destruct (String.eqb c cls) eqn:E.
      - apply String.eqb_eq in E. subst. tauto.
      - apply String.eqb_neq in E. split; intros [_ H]; [discriminate|congruence]. }
    intros x. split; intros H.
    + apply (Permutation_in _ (sort_perm int_le l)) in H.
      apply in_distinct, in_map_iff in H. destruct H as [r [H1 H2]].
      apply Hw in H2. exists r. tauto.
    + apply (Permutation_in _ (Permutation_sym (sort_perm int_le l))).
      apply in_distinct, in_map_iff. destruct H as [r [H1 [H2 H3]]].
      exists r. split; [exact H3|]. apply Hw. tauto.
Qed.

(** C3 (code_bug). The MySQL variant's classes query has no ORDER BY: for a
    table holding CS201 before CS101 the names come back in scan order,
    which is not ascending. *)
Theorem classes_mysql_unsorted :
  handle MySQL ba_store GetClasses =
    (ba_store, ok (JSONArr [JSONObj [("class_name", JSONStr "CS201")];
                            JSONObj [("class_name", JSONStr "CS101")]]))
  /\ text_le (Some "CS201") (Some "CS101") = false.
Proof. split; reflexivity. Qed.

(** C4 (code_bug). The MySQL variant's semesters query has no ORDER BY:
    for a class with records in semesters 2, 1, 2 (scan order) it answers
    2 then 1, not ascending. *)
Theorem semesters_mysql_unsorted :
  handle MySQL ba_store (GetSemesters (Some "CS101")) =
    (ba_store, ok (JSONArr [JSONObj [("semester", JSONInt 2)];
                            JSONObj [("semester", JSONInt 1)]]))
  /\ int_le (Some 2%Z) (Some 1%Z) = false.
Proof. split; reflexivity. Qed.

(** When the semester text is not an integer number, the details answer is
    decided by the store's handling of that parameter: a store that rejects
    it gives 500 with null, one that binds it as NULL gives 200 with null. *)
Lemma details_non_integer_semester (v : variant) (st : State)
    (cls sem : string) (sec : option string) :
  online (store st) = true ->
  jsnum_int (Number_of_string sem) = None ->
  (coerce_other (store st) (JNum (Number_of_string sem)) = None ->
   snd (handle v st (GetDetails (Some cls) (Some sem) sec)) = fail JSONNull) /\
  (coerce_other (store st) (JNum (Number_of_string sem)) = Some None ->
   snd (handle v st (GetDetails (Some cls) (Some sem) sec)) = ok JSONNull).
Proof.
  intros Hon Hn. split; intros Hc;
    unfold handle, respond, details_stmt; simpl option_map;
    destruct (String.eqb _ "");
    unfold exec; rewrite Hon; simpl negb; cbv iota;
    unfold bind_int; rewrite Hn, Hc; cbv iota; try reflexivity;
    rewrite where_none; try reflexivity;
    intros r; unfold matches;
    destruct (class_name r), (semester r), (section r); simpl;
    repeat (destruct (String.eqb _ _); simpl); reflexivity.
Qed.

(** Update overwrites the eight non-attachment columns of the rows with the
    given id and leaves ids and attachment columns of every row unchanged,
    in both variants. *)
Lemma update_keeps_attachments (v : variant) (st st' : State) (rid : string)
    (b : UpdBody) (resp : Response) :
  handle v st (PutUpdate rid b) = (st', resp) ->
  map (fun r => (id r, syllabus_link r, mentor_photo r)) (table (store st'))
  = map (fun r => (id r, syllabus_link r, mentor_photo r)) (table (store st)).
Proof.
  unfold handle. destruct (upd_vals b) as [vals|];
    [|intros H; injection H as <- _; reflexivity].
  unfold respond. destruct (exec (store st) _) as [[db' q]|] eqn:E;
    intros H; injection H as <- _; [|reflexivity].
  unfold exec in E. destruct (negb (online (store st))); [discriminate|].
  destruct (bind_int (store st) (v_semester vals)),
           (bind_int (store st) (JStr rid)); try discriminate.
  destruct (forallb _ _); [|discriminate]. injection E as <- _.
  simpl. rewrite map_map. apply map_ext. intros r.
  destruct (matches _ r); reflexivity.
Qed.

(** In the MySQL variant the update route applies to its fields exactly the
    expressions of the add route. *)
Lemma mysql_update_uses_add_rules (b : AddBody) :
  upd_vals {| u_class_name := mval_to_jsval (a_class_name b);
              u_semester := mval_to_jsval (a_semester b);
              u_section := mval_to_jsval (a_section b);
              u_academic_year := mval_to_jsval (a_academic_year b);
              u_mentor_name := mval_to_jsval (a_mentor_name b);
              u_designation := mval_to_jsval (a_designation b);
              u_contact := mval_to_jsval (a_contact b);
              u_timetable_link := mval_to_jsval (a_timetable_link b) |}
  = add_vals MySQL b.
Proof. reflexivity. Qed.

(** C6 (code_bug). In the PostgreSQL variant, add stores a missing
    [academic_year] as "" and a missing [timetable_link] as NULL, coercing
    the semester with [Number], while update, for the same fields, stores
    NULL for the missing [academic_year]: update does not follow add's
    trim/default rules. *)
Theorem postgres_update_defaults_differ_from_add :
  map academic_year
    (table (store (fst (handle Postgres (st_of [] 1)
                          (PostAdd (add_body "CS101" "3" "A") None None)))))
  = [Some ""] /\
  map academic_year
    (table (store (fst (handle Postgres (st_of [row 1 "CS101" 3 (Some "A")] 2)
                          (PutUpdate "1" (upd_body "CS101" 3 "A"))))))
  = [None].
Proof. split; reflexivity. Qed.

Lemma replace_ws_runs_true (s : string) :
  replace_ws_runs true s = replace_ws_runs false (snd (Spec.split_ws s)).
Proof.
  induction s as [|c s IH]; simpl; [reflexivity|].
  destruct (is_ws c) eqn:E.
  - rewrite IH. destruct (Spec.split_ws s). reflexivity.
  - simpl. rewrite E. reflexivity.
Qed.

Lemma split_ws_spec (s : string) :
  fst (Spec.split_ws s) ++ snd (Spec.split_ws s) = s /\
  Spec.all_ws (fst (Spec.split_ws s)) = true /\
  Spec.starts_non_ws (snd (Spec.split_ws s)) /\
  String.length (snd (Spec.split_ws s)) <= String.length s.
Proof.
  induction s as [|c s IH]; simpl; [repeat split; auto|].
  destruct (is_ws c) eqn:E.
  - destruct (Spec.split_ws s) as [w r]. simpl in *.
    destruct IH as [H1 [H2 [H3 H4]]].
    rewrite H1. unfold Spec.all_ws in *. simpl. rewrite E, H2.
    repeat split; auto.
  - simpl. repeat split; auto.
Qed.

(** The stored-name transformation replaces each maximal run of whitespace
    by one underscore. *)
Lemma replace_ws_runs_spec (s : string) :
  Spec.ws_runs_replaced s (replace_ws_runs false s).
Proof.
  remember (String.length s) as k eqn:Hk.
  revert s Hk. induction k as [k IH] using lt_wf_ind. intros s Hk.
  destruct s as [|c s]; simpl; [constructor|].
  destruct (is_ws c) eqn:E.
  - rewrite replace_ws_runs_true.
    destruct (split_ws_spec s) as [H1 [H2 [H3 H4]]].
    set (w := fst (Spec.split_ws s)) in *. set (r := snd (Spec.split_ws s)) in *.
    replace (String c s) with (String c w ++ r) by (simpl; rewrite H1; reflexivity).
    apply Spec.wr_run; [discriminate| |exact H3|].
    + unfold Spec.all_ws in *. simpl. rewrite E. exact H2.
    + apply (IH (String.length r)); [simpl in Hk; lia|reflexivity].
  - apply Spec.wr_char; [exact E|].
    apply (IH (String.length s)); [simpl in Hk; lia|reflexivity].
Qed.

Lemma store_upload_store st f u : store (store_upload st f u) = store st.
Proof.
  destruct u as [u|]; simpl; [|reflexivity].
  destruct (destination _ _); reflexivity.
Qed.

(** C7 (amended). When adding a record with a syllabus file and no mentor
    photo succeeds, the table gains one record whose syllabus link is
    "/uploads/syllabus/" followed by the stored name and whose mentor photo
    link is NULL; the file is written to the syllabus area; the stored name
    is the decimal [Date.now()] timestamp, an underscore, and the original
    name with every maximal run of whitespace replaced by one underscore.
    The destination area is chosen by the field name. *)
Theorem add_syllabus_only (v : variant) (st : State) (b : AddBody)
    (u : Upload) :
  snd (handle v st (PostAdd b (Some u) None))
    = ok (message "Record added successfully") ->
  let st' := fst (handle v st (PostAdd b (Some u) None)) in
  (exists r, table (store st') = (table (store st) ++ [r])%list /\
             syllabus_link r = Some ("/uploads/syllabus/" ++ filename u) /\
             mentor_photo r = None)
  /\ disk st' = app (disk st) [(dirname st ++ "/uploads/syllabus", filename u)]
  /\ (exists safe, filename u = Z_to_dec (uploaded_at u) ++ "_" ++ safe /\
                   Spec.ws_runs_replaced (originalname u) safe)
  /\ (forall d, destination d "syllabus" = Some (d ++ "/uploads/syllabus") /\
                destination d "mentor_photo" = Some (d ++ "/uploads/mentors")).
Proof.
  intros H st'.
  split; [|split; [|split]].
  - subst st'. revert H. unfold handle.
    destruct (add_vals v b) as [vals|];
      [|destruct v; simpl; intros H; discriminate].
    unfold respond. rewrite !store_upload_store.
    destruct (exec (store st) _) as [[db' q]|] eqn:E;
      simpl; intros H; [|discriminate].
    unfold exec in E. destruct (negb (online (store st))); [discriminate|].
    destruct (bind_int (store st) (v_semester vals)) as [n|]; [|discriminate].
    destruct (admits (store st) _); [|discriminate]. injection E as <- _.
    eexists. split; [reflexivity|]. split; reflexivity.
  - subst st'. unfold handle.
    destruct (add_vals v b) as [vals|]; [|reflexivity].
    unfold respond. rewrite !store_upload_store.
    destruct (exec (store st) _) as [[db' q]|]; reflexivity.
  - exists (replace_ws_runs false (originalname u)).
    split; [reflexivity|apply replace_ws_runs_spec].
  - intros d. split; reflexivity.
Qed.

Lemma add_syllabus_only_witness :
  snd (handle Postgres (st_of [] 1)
         (PostAdd (add_body "CS101" "3" "A") (Some notes) None))
    = ok (message "Record added successfully") /\
  disk (fst (handle Postgres (st_of [] 1)
         (PostAdd (add_body "CS101" "3" "A") (Some notes) None)))
    = [("/srv/portal/uploads/syllabus", "1700000000000_unit_1_notes.pdf")].
Proof.
  assert (H : snd (handle Postgres (st_of [] 1)
                 (PostAdd (add_body "CS101" "3" "A") (Some notes) None))
              = ok (message "Record added successfully")) by reflexivity.
  split; [exact H|].
  destruct (add_syllabus_only Postgres (st_of [] 1) (add_body "CS101" "3" "A")
              notes H) as [_ [Hd _]].
  rewrite Hd. reflexivity.
Defined.

(** C7 (as stated, character by character) fails: two spaces in the
    original name give one underscore, not two. *)
Lemma add_filename_ws_run_cex :
  filename notes = "1700000000000_unit_1_notes.pdf" /\
  filename notes <> Z_to_dec (uploaded_at notes) ++ "_" ++
                    Spec.replace_each_ws (originalname notes).
Proof. split; vm_compute; [reflexivity|discriminate]. Qed.





(** How a handler's answer is built from the statement it issues. *)
Lemma handle_issued (v : variant) (st : State) (req : Request) (s : stmt) :
  issued v req = Some s ->
  exists st1 on_ok on_fault,
    store st1 = store st /\
    handle v st req = respond st1 s on_ok on_fault /\
    match req with
    | GetClasses | GetSemesters _ | GetSections _ _ | GetRecords =>
        on_fault = JSONArr [] /\
        forall q, strs q = [] -> ints q = [] -> rows q = [] ->
                  on_ok q = JSONArr []
    | GetDetails _ _ _ =>
        on_fault = JSONNull /\ forall q, rows q = [] -> on_ok q = JSONNull
    | PostAdd _ _ _ => on_fault = error "Insert failed"
    | PutUpdate _ _ =>
        on_fault = error "Update failed" /\
        forall q, on_ok q = message "Record updated successfully"
    | DeleteRecord _ =>
        on_fault = error "Delete failed" /\
        forall q, on_ok q = message "Record deleted successfully"
    end.
Proof.
  intros Hi.
  destruct req as [|cls|cls sem|cls sem sec|b syl ph| |rid b|rid];
    cbn [issued option_map] in Hi.
  - injection Hi as <-. do 3 eexists. split; [reflexivity|].
    split; [reflexivity|]. split; [reflexivity|].
    intros q Hs _ _. rewrite Hs. reflexivity.
  - injection Hi as <-. do 3 eexists. split; [reflexivity|].
    split; [reflexivity|]. split; [reflexivity|].
    intros q _ Hs _. rewrite Hs. reflexivity.
  - injection Hi as <-. do 3 eexists. split; [reflexivity|].
    split; [destruct v; reflexivity|]. split; [reflexivity|].
    intros q Hs _ _. rewrite Hs. reflexivity.
  - injection Hi as <-. do 3 eexists. split; [reflexivity|].
    split; [reflexivity|]. split; [reflexivity|].
    intros q Hr. simpl. rewrite Hr. reflexivity.
  - destruct (add_vals v b) as [vals|] eqn:Hv; [|discriminate].
    injection Hi as <-.
    exists (store_upload (store_upload st "syllabus" syl) "mentor_photo" ph).
    exists (fun _ => message "Record added successfully").
    exists (error "Insert failed").
    split; [rewrite !store_upload_store; reflexivity|].
    split; [|reflexivity].
    change (handle v st (PostAdd b syl ph)) with
      (match add_vals v b with
       | Some vals =>
           respond (store_upload (store_upload st "syllabus" syl)
                      "mentor_photo" ph)
             (SInsert vals
                (option_map (fun f => "/uploads/syllabus/" ++ filename f) syl)
                (option_map (fun f => "/uploads/mentors/" ++ filename f) ph))
             (fun _ => message "Record added successfully")
             (error "Insert failed")
       | None => (store_upload (store_upload st "syllabus" syl)
                    "mentor_photo" ph, thrown v "Insert failed")
       end).
    rewrite Hv. reflexivity.
  - injection Hi as <-. do 3 eexists. split; [reflexivity|].
    split; [reflexivity|]. split; [reflexivity|].
    intros q _ _ Hr. simpl. rewrite Hr. reflexivity.
  - destruct (upd_vals b) as [vals|] eqn:Hv; simpl in Hi; [|discriminate].
    injection Hi as <-. do 3 eexists. split; [reflexivity|].
    split; [unfold handle; rewrite Hv; reflexivity|].
    split; [reflexivity|]. intros q. reflexivity.
  - injection Hi as <-. do 3 eexists. split; [reflexivity|].
    split; [reflexivity|]. split; [reflexivity|]. intros q. reflexivity.
Qed.








Lemma handle_delete v st rid k :
  online (store st) = true -> bind_int (store st) (JStr rid) = Some k ->
  handle v st (DeleteRecord rid) =
    (with_store st (with_table (store st)
       (filter (fun r => negb (matches (id_is k) r)) (table (store st)))
       (next_id (store st))),
     ok (message "Record deleted successfully")).
Proof.
  intros Hon Hk. unfold handle, respond, exec. rewrite Hon, Hk. reflexivity.
Qed.



Lemma opt_trim_or_empty_spec (j : jsval) (s : string) :
  opt_trim_or_empty j = Some s ->
  (forall s0, j = JStr s0 -> s = trim s0) /\
  (j = JUndefined \/ j = JNull -> s = "").
Proof.
  intros H. split.
  - intros s0 ->. injection H as <-. reflexivity.
  - intros [-> | ->]; injection H as <-; reflexivity.
Qed.

Lemma add_vals_section v b vals :
  add_vals v b = Some vals ->
  exists s, v_section vals = Some s /\
    (forall s0, a_section b = MStr s0 -> s = trim s0) /\
    (a_section b = MMissing -> s = "").
Proof.
  destruct v; intros H.
  - injection H as <-. eexists. split; [reflexivity|]. split.
    + intros s0 E. rewrite E. cbn [mtruthy mString].
      destruct (String.eqb s0 "") eqn:Es; [|reflexivity].
      apply String.eqb_eq in Es. subst s0. reflexivity.
    + intros E. rewrite E. reflexivity.
  - unfold add_vals in H. cbv beta zeta in H.
    repeat match type of H with
    | context [match ?x with Some _ => _ | None => _ end] =>
        let E := fresh "E" in destruct x eqn:E
    end; try discriminate.
    injection H as <-.
    match goal with
    | E : opt_trim_or_empty (mval_to_jsval (a_section b)) = Some ?sec |- _ =>
        exists sec; split; [reflexivity|];
        destruct (opt_trim_or_empty_spec _ _ E) as [P Q]; split
    end.
    + intros s0 Hs. apply P. rewrite Hs. reflexivity.
    + intros Hs. apply Q. left. rewrite Hs. reflexivity.
Qed.

Lemma upd_vals_section b vals :
  upd_vals b = Some vals ->
  exists s, v_section vals = Some s /\
    (forall s0, u_section b = JStr s0 -> s = trim s0) /\
    (u_section b = JUndefined \/ u_section b = JNull -> s = "").
Proof.
  unfold upd_vals. intros H.
  repeat match type of H with
  | context [match ?x with Some _ => _ | None => _ end] =>
      let E := fresh "E" in destruct x eqn:E
  end; try discriminate.
  injection H as <-.
  match goal with
  | E : opt_trim_or_empty (u_section b) = Some ?sec |- _ =>
      exists sec; split; [reflexivity|]; exact (opt_trim_or_empty_spec _ _ E)
  end.
Qed.

(** A row a statement leaves in the table that was not there before is the
    inserted row or an updated row, and carries the section of the values. *)
Lemma exec_new_rows db s db' q r :
  exec db s = Done (db', q) -> In r (table db') -> ~ In r (table db) ->
  (exists vals syl ph, s = SInsert vals syl ph /\ section r = v_section vals) \/
  (exists vals rid, s = SUpdate vals rid /\ section r = v_section vals).
Proof.
  intros E H1 H2. unfold exec in E.
  destruct (negb (online db)); [discriminate|].
  destruct s as [o|o c|c sem|c sem|c sem sec|c sem|vals syl ph| |vals rid|rid];
    cbv zeta in E.
  - injection E as <- _. contradiction.
  - injection E as <- _. contradiction.
  - destruct (bind_int db sem); [|discriminate].
    injection E as <- _. contradiction.
  - destruct (bind_int db sem); [|discriminate].
    injection E as <- _. contradiction.
  - destruct (bind_int db sem); [|discriminate].
    injection E as <- _. contradiction.
  - destruct (bind_int db sem); [|discriminate].
    injection E as <- _. contradiction.
  - destruct (bind_int db (v_semester vals)) as [n|]; [|discriminate].
    destruct (admits db _); [|discriminate].
    injection E as <- _. apply in_app_or in H1.
    destruct H1 as [H1|[<-|[]]]; [contradiction|].
    left. do 3 eexists. split; reflexivity.
  - injection E as <- _. contradiction.
  - destruct (bind_int db (v_semester vals)) as [n|]; [|discriminate].
    destruct (bind_int db rid) as [k|]; [|discriminate].
    destruct (forallb _ _); [|discriminate].
    injection E as <- _. apply in_map_iff in H1.
    destruct H1 as [r0 [Hr Hin]].
    destruct (matches (id_is k) r0).
    + subst r. right. do 2 eexists. split; reflexivity.
    + subst r0. contradiction.
  - destruct (bind_int db rid) as [k|]; [|discriminate].
    injection E as <- _. apply filter_In in H1. destruct H1 as [H1 _].
    contradiction.
Qed.

Lemma handle_add_none v st b syl ph :
  add_vals v b = None ->
  handle v st (PostAdd b syl ph) =
    (store_upload (store_upload st "syllabus" syl) "mentor_photo" ph,
     thrown v "Insert failed").
Proof. intros Hv. unfold handle. rewrite Hv. reflexivity. Qed.

Lemma handle_update_none v st rid b :
  upd_vals b = None ->
  handle v st (PutUpdate rid b) = (st, thrown v "Update failed").
Proof. intros Hv. unfold handle. rewrite Hv. reflexivity. Qed.

(** The store after a request is the old one, or the one a successful
    execution of the issued statement produced. *)
Lemma handle_store v st req :
  store (fst (handle v st req)) = store st \/
  exists s q, issued v req = Some s /\
              exec (store st) s = Done (store (fst (handle v st req)), q).
Proof.
  destruct (issued v req) as [s|] eqn:Hi.
  - destruct (handle_issued v st req s Hi) as [st1 [f [j [Hs [Hh _]]]]].
    rewrite Hh. unfold respond. rewrite Hs.
    destruct (exec (store st) s) as [[db' q]|] eqn:E.
    + right. exists s, q. split; [reflexivity|]. exact E.
    + left. exact Hs.
  - left. destruct req as [| | | |b syl ph| |rid b|]; cbn [issued] in Hi;
      try discriminate.
    + destruct (add_vals v b) eqn:Hv; [discriminate|].
      rewrite (handle_add_none v st b syl ph Hv). cbn [fst].
      rewrite !store_upload_store. reflexivity.
    + destruct (upd_vals b) eqn:Hv; [discriminate|].
      rewrite (handle_update_none v st rid b Hv). reflexivity.
Qed.

(** C10. In both variants, every row a request leaves in the table that was
    not there before was written by the add or the update handler and has a
    non-null section: the trimmed input when a string was sent, the empty
    string when the field was missing (or null for update). *)
Theorem written_sections_non_null (v : variant) (st st' : State)
    (req : Request) (resp : Response) (r : Row) :
  handle v st req = (st', resp) ->
  In r (table (store st')) -> ~ In r (table (store st)) ->
  exists s, section r = Some s /\
    match req with
    | PostAdd b _ _ =>
        (forall s0, a_section b = MStr s0 -> s = trim s0) /\
        (a_section b = MMissing -> s = "")
    | PutUpdate _ b =>
        (forall s0, u_section b = JStr s0 -> s = trim s0) /\
        (u_section b = JUndefined \/ u_section b = JNull -> s = "")
    | _ => False
    end.
Proof.
  intros Hh H1 H2.
  destruct (handle_store v st req) as [Hs|[s [q [Hi E]]]];
    rewrite Hh in *; cbn [fst] in *.
  - rewrite Hs in H1. contradiction.
  - destruct (exec_new_rows _ _ _ _ _ E H1 H2)
      as [[vals [syl [ph [-> Hsec]]]]|[vals [rid [-> Hsec]]]].
    + destruct req as [| | | |b syl' ph'| |rid b|]; cbn [issued] in Hi;
        try discriminate; try (destruct v; discriminate);
        try (unfold details_stmt in Hi; cbv zeta in Hi;
             destruct (String.eqb _ _); discriminate).
      * destruct (add_vals v b) as [vals'|] eqn:Hv; [|discriminate].
        injection Hi as <- _ _.
        destruct (add_vals_section _ _ _ Hv) as [s0 [Hs0 P]].
        exists s0. rewrite Hsec. split; [exact Hs0|exact P].
      * destruct (upd_vals b); discriminate.
    + destruct req as [| | | |b syl' ph'| |rid' b|]; cbn [issued] in Hi;
        try discriminate; try (destruct v; discriminate);
        try (unfold details_stmt in Hi; cbv zeta in Hi;
             destruct (String.eqb _ _); discriminate).
      * destruct (add_vals v b); discriminate.
      * destruct (upd_vals b) as [vals'|] eqn:Hv; [|discriminate].
        injection Hi as <- _.
        destruct (upd_vals_section _ _ Hv) as [s0 [Hs0 P]].
        exists s0. rewrite Hsec. split; [exact Hs0|exact P].
Qed.

Lemma written_sections_non_null_witness :
  exists s,
    section (hd (row 0 "" 0 None)
      (table (store (fst (handle MySQL (st_of [] 1)
         (PostAdd (add_body "CS101" "3" " A ") None None)))))) = Some s /\
    (forall s0, MStr " A " = MStr s0 -> s = trim s0) /\
    (MStr " A " = MMissing -> s = "").
Proof.
  apply (written_sections_non_null MySQL (st_of [] 1)
           (fst (handle MySQL (st_of [] 1)
              (PostAdd (add_body "CS101" "3" " A ") None None)))
           (PostAdd (add_body "CS101" "3" " A ") None None)
           (snd (handle MySQL (st_of [] 1)
              (PostAdd (add_body "CS101" "3" " A ") None None)))).
  - apply surjective_pairing.
  - left. reflexivity.
  - simpl. tauto.
Defined.

End Claims.

(* ================================================================== *)
(** ** Further properties of the handlers *)
Module Extras.
Import Js Store Server Spec Shapes Facts Fixtures Claims.

Lemma exec_read_only db s db' q :
  match s with SInsert _ _ _ | SUpdate _ _ | SDelete _ => False | _ => True end ->
  exec db s = Done (db', q) -> db' = db.
Proof.
  intros Hs E. unfold exec in E. destruct (negb (online db)); [discriminate|].
  destruct s; try contradiction; cbv zeta in E;
    repeat match type of E with
    | context [match ?x with Some _ => _ | None => _ end] => destruct x
    end; try discriminate; injection E as <- _; reflexivity.
Qed.

Lemma respond_read_only st s f j :
  match s with SInsert _ _ _ | SUpdate _ _ | SDelete _ => False | _ => True end ->
  fst (respond st s f j) = st.
Proof.
  intros Hs. unfold respond.
  destruct (exec (store st) s) as [[db' q]|] eqn:E; [|reflexivity].
  apply exec_read_only in E; [|exact Hs]. subst db'. apply with_store_same.
Qed.

(** The five lookup routes never change the server's state, whatever the
    store answers. *)
Theorem lookups_read_only (v : variant) (st : State) :
  fst (handle v st GetClasses) = st /\
  (forall cls, fst (handle v st (GetSemesters cls)) = st) /\
  (forall cls sem, fst (handle v st (GetSections cls sem)) = st) /\
  (forall cls sem sec, fst (handle v st (GetDetails cls sem sec)) = st) /\
  fst (handle v st GetRecords) = st.
Proof.
  split; [apply respond_read_only; exact I|].
  split; [intros; apply respond_read_only; exact I|].
  split; [intros; cbn [handle]; apply respond_read_only; destruct v; exact I|].
  split; [|apply respond_read_only; exact I].
  intros. cbn [handle]. apply respond_read_only.
  unfold details_stmt. cbv zeta. destruct (String.eqb _ _); exact I.
Qed.

(** [GET /api/admin/records] lists every row of the table exactly once,
    projected to id, class name, semester, section, mentor name and
    designation. *)
Theorem records_listing (v : variant) (st : State) :
  online (store st) = true ->
  exists out, handle v st GetRecords = (st, ok (JSONArr (map summary_json out)))
              /\ Permutation out (table (store st)).
Proof.
  intros Hon. exists (sort class_sem_le (table (store st))). split.
  - unfold handle, respond, exec. rewrite Hon. cbn [negb].
    rewrite with_store_same. reflexivity.
  - apply sort_perm.
Qed.

Lemma records_listing_witness :
  online (store ba_store) = true /\
  exists out, handle MySQL ba_store GetRecords =
                (ba_store, ok (JSONArr (map summary_json out)))
              /\ Permutation out (table (store ba_store)).
Proof. split; [reflexivity|]. apply records_listing. reflexivity. Defined.




Lemma store_uploads_disk st syl ph :
  disk (store_upload (store_upload st "syllabus" syl) "mentor_photo" ph)
  = app (disk st) (written_files (dirname st) syl ph).
Proof.
  unfold written_files.
  destruct syl as [u|], ph as [w|]; cbn; rewrite <- ?app_assoc, ?app_nil_r;
    reflexivity.
Qed.

(** The model's effect of a successful add, with the new row placed last. *)
Lemma add_model_row (v : variant) (st : State) (b : AddBody)
    (syl ph : option Upload) :
  status (snd (handle v st (PostAdd b syl ph))) = 200%Z ->
  exists r,
    table (store (fst (handle v st (PostAdd b syl ph))))
      = app (table (store st)) [r] /\
    id r = next_id (store st) /\
    next_id (store (fst (handle v st (PostAdd b syl ph))))
      = Z.succ (next_id (store st)) /\
    syllabus_link r
      = option_map (fun f => "/uploads/syllabus/" ++ filename f) syl /\
    mentor_photo r
      = option_map (fun f => "/uploads/mentors/" ++ filename f) ph /\
    admits (store st) r = true /\
    disk (fst (handle v st (PostAdd b syl ph)))
      = app (disk st) (written_files (dirname st) syl ph).
Proof.
  unfold handle. cbv zeta.
  destruct (add_vals v b) as [vals|];
    [|destruct v; cbn; discriminate].
  unfold respond.
  destruct (exec _ _) as [[db' q]|] eqn:E; [|cbn; discriminate].
  intros _. rewrite !store_upload_store in E.
  unfold exec in E. destruct (negb (online (store st))); [discriminate|].
  destruct (bind_int (store st) (v_semester vals)) as [n|]; [|discriminate].
  destruct (admits (store st) _) eqn:Ha; [|discriminate].
  injection E as <- _.
  eexists. cbn [fst with_store store with_table table next_id].
  split; [reflexivity|]. split; [reflexivity|]. split; [reflexivity|].
  split; [reflexivity|]. split; [reflexivity|]. split; [exact Ha|].
  apply store_uploads_disk.
Qed.

(** A successful add inserts exactly one row: up to the order of the rows,
    the new table is the old one plus a row that takes the identity
    counter, which advances; its attachment links name the files written
    for the uploads, the table's constraints accepted it, and the files on
    disk are the old ones plus those written for the uploads. *)
Theorem add_inserts_row (v : variant) (st : State) (b : AddBody)
    (syl ph : option Upload) :
  status (snd (handle v st (PostAdd b syl ph))) = 200%Z ->
  exists r,
    Permutation (table (store (fst (handle v st (PostAdd b syl ph)))))
      (r :: table (store st)) /\
    id r = next_id (store st) /\
    next_id (store (fst (handle v st (PostAdd b syl ph))))
      = Z.succ (next_id (store st)) /\
    syllabus_link r
      = option_map (fun f => "/uploads/syllabus/" ++ filename f) syl /\
    mentor_photo r
      = option_map (fun f => "/uploads/mentors/" ++ filename f) ph /\
    admits (store st) r = true /\
    Permutation (disk (fst (handle v st (PostAdd b syl ph))))
      (app (disk st) (written_files (dirname st) syl ph)).
Proof.
  intros H200.
  destruct (add_model_row v st b syl ph H200)
    as [r [Ht [Hi [Hn [Hs [Hm [Ha Hd]]]]]]].
  exists r. rewrite Ht, Hd.
  split; [apply Permutation_sym, Permutation_cons_append|].
  split; [exact Hi|]. split; [exact Hn|]. split; [exact Hs|].
  split; [exact Hm|]. split; [exact Ha|]. reflexivity.
Qed.

Lemma add_inserts_row_witness :
  status (snd (handle Postgres (st_of [] 1)
     (PostAdd (add_body "CS101" "3" "A") (Some notes) None))) = 200%Z /\
  exists r,
    Permutation (table (store (fst (handle Postgres (st_of [] 1)
      (PostAdd (add_body "CS101" "3" "A") (Some notes) None))))) [r] /\
    id r = 1%Z.
Proof.
  assert (E : status (snd (handle Postgres (st_of [] 1)
     (PostAdd (add_body "CS101" "3" "A") (Some notes) None))) = 200%Z)
    by reflexivity.
  split; [exact E|].
  destruct (add_inserts_row Postgres (st_of [] 1) (add_body "CS101" "3" "A")
              (Some notes) None E) as [r [Ht [Hi _]]].
  exists r. split; [exact Ht|exact Hi].
Defined.

Lemma Forall2_map_self {A B} (R : A -> B -> Prop) (f : A -> B) (l : list A) :
  (forall x, In x l -> R x (f x)) -> Forall2 R l (map f l).
Proof.
  induction l as [|x l IH]; intros H; constructor.
  - apply H. left. reflexivity.
  - apply IH. intros y Hy. apply H. right. exact Hy.
Qed.

Lemma Forall2_self {A} (R : A -> A -> Prop) (l : list A) :
  (forall x, R x x) -> Forall2 R l l.
Proof. intros H. induction l; constructor; auto. Qed.

(** The model's effect of an update, row by row in scan order. *)
Lemma update_rows_pointwise (v : variant) (st : State) (rid : string) (b : UpdBody) :
  Forall2 (fun r r' =>
             id r' = id r /\ syllabus_link r' = syllabus_link r /\
             mentor_photo r' = mentor_photo r /\
             (r' = r \/ exists k, bind_int (store st) (JStr rid) = Some k /\
                                  matches (id_is k) r = true))
    (table (store st))
    (table (store (fst (handle v st (PutUpdate rid b))))) /\
  next_id (store (fst (handle v st (PutUpdate rid b)))) = next_id (store st).
Proof.
  unfold handle.
  destruct (upd_vals b) as [vals|];
    [|split; [apply Forall2_self; intros x; auto|reflexivity]].
  unfold respond.
  destruct (exec _ _) as [[db' q]|] eqn:E;
    [|split; [apply Forall2_self; intros x; auto|reflexivity]].
  unfold exec in E. destruct (negb (online (store st))); [discriminate|].
  destruct (bind_int (store st) (v_semester vals)) as [n|]; [|discriminate].
  destruct (bind_int (store st) (JStr rid)) as [k|] eqn:Hk; [|discriminate].
  destruct (forallb _ _); [|discriminate]. injection E as <- _.
  cbn [fst with_store store with_table table next_id].
  split; [|reflexivity].
  apply Forall2_map_self. intros x _.
  destruct (matches (id_is k) x) eqn:Hx.
  - split; [reflexivity|]. split; [reflexivity|]. split; [reflexivity|].
    right. exists k. split; [reflexivity|exact Hx].
  - auto.
Qed.

Lemma Forall2_map_ids (R : Row -> Row -> Prop) (l l' : list Row) :
  (forall r r', R r r' -> id r' = id r) ->
  Forall2 R l l' -> map id l' = map id l.
Proof.
  intros HR H. induction H as [|r r' l l' Hr _ IH]; [reflexivity|].
  cbn [map]. rewrite (HR r r' Hr), IH. reflexivity.
Qed.

Lemma Forall2_in_right {A B} (R : A -> B -> Prop) l l' y :
  Forall2 R l l' -> In y l' -> exists x, In x l /\ R x y.
Proof.
  intros H. induction H as [|x x' l l' Hx _ IH]; intros Hy; [destruct Hy|].
  destruct Hy as [<-|Hy].
  - exists x. split; [left; reflexivity|exact Hx].
  - destruct (IH Hy) as [z [Hz Hr]]. exists z. split; [right; exact Hz|exact Hr].
Qed.

Lemma Forall2_in_left {A B} (R : A -> B -> Prop) l l' x :
  Forall2 R l l' -> In x l -> exists y, In y l' /\ R x y.
Proof.
  intros H. induction H as [|x0 y0 l l' Hx _ IH]; intros Hin; [destruct Hin|].
  destruct Hin as [<-|Hin].
  - exists y0. split; [left; reflexivity|exact Hx].
  - destruct (IH Hin) as [z [Hz Hr]]. exists z. split; [right; exact Hz|exact Hr].
Qed.

(** Update keeps the set of row ids (as a multiset) and the identity
    counter; every row of the new table is either a row of the old table or
    takes the id and attachment links of an old row whose id equals the id
    parameter as bound by the store; and every old row whose id is not the
    bound id parameter is still in the table. *)
Theorem update_frame (v : variant) (st : State) (rid : string) (b : UpdBody) :
  Permutation (map id (table (store (fst (handle v st (PutUpdate rid b))))))
    (map id (table (store st))) /\
  next_id (store (fst (handle v st (PutUpdate rid b)))) = next_id (store st) /\
  (forall r', In r' (table (store (fst (handle v st (PutUpdate rid b))))) ->
     In r' (table (store st)) \/
     exists k r, bind_int (store st) (JStr rid) = Some k /\
       In r (table (store st)) /\ matches (id_is k) r = true /\
       id r' = id r /\ syllabus_link r' = syllabus_link r /\
       mentor_photo r' = mentor_photo r) /\
  (forall r, In r (table (store st)) ->
     (forall k, bind_int (store st) (JStr rid) = Some k ->
                matches (id_is k) r = false) ->
     In r (table (store (fst (handle v st (PutUpdate rid b)))))).
Proof.
  destruct (update_rows_pointwise v st rid b) as [HF Hn].
  split; [|split; [exact Hn|split]].
  - rewrite (Forall2_map_ids _ _ _ (fun r r' H => proj1 H) HF). reflexivity.
  - intros r' Hr'.
    destruct (Forall2_in_right _ _ _ _ HF Hr')
      as [r [Hr [Hi [Hs [Hm [<-|[k [Hk Hx]]]]]]]].
    + left. exact Hr.
    + right. exists k, r. repeat split; assumption.
  - intros r Hr Hno.
    destruct (Forall2_in_left _ _ _ _ HF Hr)
      as [r' [Hr' [_ [_ [_ [->|[k [Hk Hx]]]]]]]].
    + exact Hr'.
    + rewrite (Hno k Hk) in Hx. discriminate.
Qed.

Lemma update_frame_witness :
  Permutation
    (map id (table (store (fst (handle MySQL ba_store
       (PutUpdate "2" (upd_body "CS301" 5 "C")))))))
    [1%Z; 2%Z; 3%Z; 4%Z].
Proof.
  exact (proj1 (update_frame MySQL ba_store "2" (upd_body "CS301" 5 "C"))).
Defined.

Lemma bind_int_with_table db t n x :
  bind_int (with_table db t n) x = bind_int db x.
Proof. destruct x; reflexivity. Qed.

Lemma exec_update_again db vals rid db' q :
  exec db (SUpdate vals rid) = Done (db', q) ->
  exists q', exec db' (SUpdate vals rid) = Done (db', q').
Proof.
  intros E. unfold exec in E |- *.
  destruct (online db) eqn:Hon; [|discriminate]. cbn [negb] in E.
  destruct (bind_int db (v_semester vals)) as [n|] eqn:Hn; [|discriminate].
  destruct (bind_int db rid) as [k|] eqn:Hk; [|discriminate].
  destruct (forallb _ _) eqn:Hf; [|discriminate].
  injection E as <- _.
  cbn [online with_table negb]. rewrite Hon. cbv zeta.
  rewrite !bind_int_with_table, Hn, Hk.
  cbn [table admits with_table negb].
  rewrite map_map.
  rewrite (map_ext
             (fun x => if matches (id_is k)
                            (if matches (id_is k) x then set_vals vals n x else x)
                       then set_vals vals n
                              (if matches (id_is k) x then set_vals vals n x else x)
                       else if matches (id_is k) x then set_vals vals n x else x)
             (fun x => if matches (id_is k) x then set_vals vals n x else x))
    by (intros x; cbv beta;
        destruct (matches (id_is k) x) eqn:Hx; [|rewrite Hx; reflexivity];
        change (matches (id_is k) (set_vals vals n x))
          with (matches (id_is k) x);
        rewrite Hx; reflexivity).
  rewrite Hf.
  eexists. reflexivity.
Qed.

Lemma handle_update_some v st rid b vals :
  upd_vals b = Some vals ->
  handle v st (PutUpdate rid b) =
    respond st (SUpdate vals (JStr rid))
      (fun _ => message "Record updated successfully") (error "Update failed").
Proof. intros Hv. unfold handle. rewrite Hv. reflexivity. Qed.

(** Sending the same update twice has the effect and the answer of sending
    it once, in both variants. *)
Theorem update_idempotent (v : variant) (st : State) (rid : string)
    (b : UpdBody) :
  handle v (fst (handle v st (PutUpdate rid b))) (PutUpdate rid b) =
  handle v st (PutUpdate rid b).
Proof.
  destruct (upd_vals b) as [vals|] eqn:Hv.
  - rewrite !(handle_update_some v _ rid b vals Hv).
    unfold respond at 2 3.
    destruct (exec (store st) (SUpdate vals (JStr rid))) as [[db' q]|] eqn:E.
    + cbn [fst]. unfold respond.
      destruct (exec_update_again _ _ _ _ _ E) as [q' E'].
      change (store (with_store st db')) with db'. rewrite E'.
      reflexivity.
    + cbn [fst]. unfold respond. rewrite E. reflexivity.
  - rewrite !(handle_update_none v _ rid b Hv). reflexivity.
Qed.

(** Deleting with an id the store binds to the integer [z] removes exactly
    the rows whose id is [z], keeps the other rows in order, and leaves the
    identity counter unchanged. *)
Theorem delete_effect (v : variant) (st : State) (rid : string) (z : Z) :
  online (store st) = true ->
  bind_int (store st) (JStr rid) = Some (Some z) ->
  snd (handle v st (DeleteRecord rid))
    = ok (message "Record deleted successfully") /\
  table (store (fst (handle v st (DeleteRecord rid))))
    = filter (fun r => negb (Z.eqb (id r) z)) (table (store st)) /\
  next_id (store (fst (handle v st (DeleteRecord rid)))) = next_id (store st).
Proof.
  intros Hon Hk. rewrite (handle_delete v st rid (Some z) Hon Hk).
  cbn [fst snd store with_store table with_table next_id].
  split; [reflexivity|]. split; [|reflexivity].
  apply filter_ext. intros r. unfold matches, id_is, sql_eq_int.
  destruct (Z.eqb (id r) z); reflexivity.
Qed.

Lemma delete_effect_witness :
  map id (table (store (fst (handle Postgres ba_store (DeleteRecord "2")))))
    = [1%Z; 3%Z; 4%Z].
Proof.
  destruct (delete_effect Postgres ba_store "2" 2 eq_refl eq_refl)
    as [_ [Ht _]].
  rewrite Ht. reflexivity.
Defined.

Lemma ids_filter_nodup (keep : Row -> bool) (t : list Row) :
  NoDup (map id t) -> NoDup (map id (filter keep t)).
Proof.
  induction t as [|r t IH]; cbn [map filter]; intros H; [constructor|].
  apply NoDup_cons_iff in H. destruct H as [Hr Ht].
  destruct (keep r); cbn [map]; [|exact (IH Ht)].
  apply NoDup_cons; [|exact (IH Ht)].
  intros Hin. apply Hr. apply in_map_iff in Hin.
  destruct Hin as [r' [Hid Hin]]. apply filter_In in Hin.
  rewrite <- Hid. apply in_map. exact (proj1 Hin).
Qed.

Lemma exec_ids db s db' q :
  exec db s = Done (db', q) ->
  NoDup (map id (table db)) ->
  Forall (fun r => (id r < next_id db)%Z) (table db) ->
  NoDup (map id (table db')) /\
  Forall (fun r => (id r < next_id db')%Z) (table db').
Proof.
  intros E Hd Hl. unfold exec in E.
  destruct (negb (online db)); [discriminate|].
  destruct s as [o|o c|c sem|c sem|c sem sec|c sem|vals syl ph| |vals rid|rid];
    cbv zeta in E;
    repeat match type of E with
    | context [match ?x with Some _ => _ | None => _ end] => destruct x
    end; try discriminate;
    try (injection E as <- _; split; assumption).
  - (* insert *)
    destruct (admits db _); [|discriminate]. injection E as <- _.
    cbn [table next_id with_table]. rewrite map_app. cbn [map id]. split.
    + apply (Permutation_NoDup (Permutation_cons_append _ _)).
      constructor; [|exact Hd].
      intros Hin. apply in_map_iff in Hin. destruct Hin as [r [Hr Hin]].
      rewrite Forall_forall in Hl. specialize (Hl r Hin). lia.
    + apply Forall_app. split.
      * eapply Forall_impl; [|exact Hl]. intros r Hr. cbv beta in *. lia.
      * constructor; [cbn [id]; lia|constructor].
  - (* update *)
    destruct (forallb _ _); [|discriminate]. injection E as <- _.
    cbn [table next_id with_table]. rewrite map_map. split.
    + erewrite map_ext; [exact Hd|].
      intros r. destruct (matches _ r); reflexivity.
    + rewrite Forall_forall in Hl |- *. intros r Hr.
      apply in_map_iff in Hr. destruct Hr as [r0 [Hr Hin]].
      specialize (Hl r0 Hin). subst r.
      destruct (matches _ r0); exact Hl.
  - (* delete *)
    injection E as <- _. cbn [table next_id with_table]. split.
    + apply ids_filter_nodup. exact Hd.
    + rewrite Forall_forall in Hl |- *. intros r Hr.
      apply filter_In in Hr. apply Hl. apply Hr.
Qed.

(** In both variants, if the ids of the table are distinct and below the
    identity counter, they still are after any request: an add takes the
    counter and advances it, an update keeps every id, a delete only removes
    rows. *)
Theorem ids_stay_unique (v : variant) (st : State) (req : Request) :
  NoDup (map id (table (store st))) ->
  Forall (fun r => (id r < next_id (store st))%Z) (table (store st)) ->
  NoDup (map id (table (store (fst (handle v st req))))) /\
  Forall (fun r => (id r < next_id (store (fst (handle v st req))))%Z)
    (table (store (fst (handle v st req)))).
Proof.
  intros Hd Hl.
  destruct (handle_store v st req) as [Hs|[s [q [_ E]]]].
  - rewrite Hs. split; assumption.
  - exact (exec_ids _ _ _ _ E Hd Hl).
Qed.

Lemma ids_stay_unique_witness :
  NoDup (map id (table (store (fst (handle Postgres ba_store
    (PostAdd (add_body "CS101" "3" "A") None None)))))).
Proof.
  refine (proj1 (ids_stay_unique Postgres ba_store
                   (PostAdd (add_body "CS101" "3" "A") None None) _ _)).
  - cbn. repeat constructor; cbn; intros H;
      repeat (destruct H as [H|H]; [discriminate|]); exact H.
  - cbn. repeat constructor.
Defined.

Lemma drop_while_split p l :
  exists P, l = app P (drop_while p l) /\ forallb p P = true.
Proof.
  induction l as [|c l [P [HP Hf]]]; simpl; [exists []; auto|].
  destruct (p c) eqn:Hc.
  - exists (c :: P). simpl. rewrite Hc, Hf. rewrite <- HP. auto.
  - exists []. auto.
Qed.

Lemma drop_while_head p l :
  match drop_while p l with [] => True | c :: _ => p c = false end.
Proof.
  induction l as [|c l IH]; simpl; [exact I|].
  destruct (p c) eqn:Hc; [exact IH|exact Hc].
Qed.

Lemma drop_while_keep p l :
  match l with [] => True | c :: _ => p c = false end -> drop_while p l = l.
Proof. destruct l as [|c l]; simpl; [reflexivity|]. intros H. rewrite H. reflexivity. Qed.

(** Stripping with [q] after stripping with a weaker-or-equal [p] changes
    nothing. *)
Lemma strip_strip (p q : ascii -> bool) (s : string) :
  (forall c, q c = true -> p c = true) -> strip q (strip p s) = strip p s.
Proof.
  intros Hqp. unfold strip. rewrite list_ascii_of_string_of_list_ascii.
  set (A := drop_while p (list_ascii_of_string s)).
  set (B := drop_while p (rev A)).
  assert (Hnq : forall c, p c = false -> q c = false).
  { intros c Hc. destruct (q c) eqn:Hq; [|reflexivity].
    apply Hqp in Hq. congruence. }
  assert (HB : match B with [] => True | c :: _ => p c = false end)
    by apply drop_while_head.
  assert (HrB : match rev B with [] => True | c :: _ => p c = false end).
  { destruct (drop_while_split p (rev A)) as [P [HP _]]. fold B in HP.
    assert (HA : A = app (rev B) (rev P)).
    { rewrite <- rev_app_distr, <- HP, rev_involutive. reflexivity. }
    pose proof (drop_while_head p (list_ascii_of_string s)) as H.
    fold A in H. rewrite HA in H. revert H.
    destruct (rev B) as [|c l]; simpl; auto. }
  rewrite (drop_while_keep q (rev B)).
  2: { destruct (rev B) as [|c l]; [exact I|]. apply Hnq. exact HrB. }
  rewrite rev_involutive.
  rewrite (drop_while_keep q B); [reflexivity|].
  destruct B as [|c l]; [exact I|]. apply Hnq. exact HB.
Qed.

Lemma sql_trim_trim (s : string) : sql_trim (trim s) = trim s.
Proof.
  apply strip_strip. intros c H. unfold is_space in H.
  apply Ascii.eqb_eq in H. subst c. reflexivity.
Qed.

Lemma txt_str (c : string) :
  trim (if mtruthy (MStr c) then mString (MStr c) else "") = trim c.
Proof.
  cbn [mtruthy mString]. destruct (String.eqb c "") eqn:E; [|reflexivity].
  apply String.eqb_eq in E. subst c. reflexivity.
Qed.

(** What a successful add wrote. *)
Lemma add_success (v : variant) (st : State) (b : AddBody)
    (syl ph : option Upload) :
  status (snd (handle v st (PostAdd b syl ph))) = 200%Z ->
  exists vals n r,
    add_vals v b = Some vals /\ online (store st) = true /\
    bind_int (store st) (v_semester vals) = Some n /\
    store (fst (handle v st (PostAdd b syl ph)))
      = with_table (store st) (app (table (store st)) [r])
          (Z.succ (next_id (store st))) /\
    class_name r = v_class_name vals /\ semester r = n /\
    section r = v_section vals /\ academic_year r = v_academic_year vals /\
    mentor_name r = v_mentor_name vals /\ designation r = v_designation vals /\
    contact r = v_contact vals /\ timetable_link r = v_timetable_link vals.
Proof.
  unfold handle. cbv zeta.
  destruct (add_vals v b) as [vals|];
    [|destruct v; cbn; discriminate].
  unfold respond.
  destruct (exec _ _) as [[db' q]|] eqn:E; [|cbn; discriminate].
  intros _. rewrite !store_upload_store in E.
  unfold exec in E. destruct (online (store st)) eqn:Hon; [|discriminate].
  cbn [negb] in E.
  destruct (bind_int (store st) (v_semester vals)) as [n|] eqn:Hn;
    [|discriminate].
  destruct (admits (store st) _); [|discriminate].
  injection E as <- _.
  exists vals, n. eexists. split; [reflexivity|]. split; [reflexivity|].
  split; [exact Hn|]. split; [reflexivity|].
  repeat split.
Qed.

Lemma add_vals_key v b vals c sem s :
  a_class_name b = MStr c -> a_semester b = MStr sem -> a_section b = MStr s ->
  add_vals v b = Some vals ->
  v_class_name vals = Some (trim c) /\
  v_semester vals = match v with
                    | Postgres => JNum (Number_of_string sem)
                    | MySQL => JStr sem
                    end /\
  v_section vals = Some (trim s).
Proof.
  intros Hc Hm Hs. destruct v; intros H.
  - injection H as <-. cbn [v_class_name v_semester v_section].
    rewrite Hc, Hm, Hs, !txt_str. auto.
  - unfold add_vals in H. cbv beta zeta in H. rewrite Hc, Hs in H.
    cbn [mval_to_jsval opt_trim opt_trim_or_empty] in H.
    repeat match type of H with
    | context [match ?x with Some _ => _ | None => _ end] => destruct x
    end; try discriminate.
    injection H as <-. cbn. rewrite Hm. auto.
Qed.

Lemma details_by_key v st c sem s n :
  online (store st) = true ->
  bind_int (store st) (JNum (Number_of_string sem)) = Some (Some n) ->
  snd (handle v st (GetDetails (Some c) (Some sem) (Some s))) =
    ok (match filter (key_match sql_trim c n s) (table (store st)) with
        | [] => JSONNull
        | r :: _ => row_json r
        end).
Proof.
  intros Hon Hb. unfold handle, respond, details_stmt.
  cbv beta iota zeta. cbn [option_map].
  destruct (String.eqb (trim s) "") eqn:E; unfold exec; rewrite Hon;
    cbn [negb]; cbv beta iota zeta; rewrite Hb.
  - apply String.eqb_eq in E.
    rewrite (where_filter _ (key_match sql_trim c n s))
      by (intros r; apply details_where_no_section; exact E).
    cbn [snd rows]. destruct (filter _ _); reflexivity.
  - apply String.eqb_neq in E.
    rewrite (where_filter _ (key_match sql_trim c n s))
      by (intros r; apply details_where_section; exact E).
    cbn [snd rows]. destruct (filter _ _); reflexivity.
Qed.

Lemma key_match_written c n s r :
  class_name r = Some (trim c) -> semester r = Some n ->
  section r = Some (trim s) -> key_match sql_trim c n s r = true.
Proof.
  intros Hc Hn Hs. unfold key_match. rewrite Hc, Hn, Hs.
  rewrite !sql_trim_trim, String.eqb_refl, Z.eqb_refl. cbn [andb].
  destruct (String.eqb (trim s) "") eqn:E; [reflexivity|apply String.eqb_refl].
Qed.

(** Round trip: after a successful add with class [c], semester [sem] and
    section [s], a details lookup with the same three values answers a
    record (never null) present in the table and matching the key. The
    semester must be bound to the same integer [n] by both routes. *)
Theorem add_then_details (v : variant) (st : State) (b : AddBody)
    (syl ph : option Upload) (c sem s : string) (n : Z) :
  a_class_name b = MStr c -> a_semester b = MStr sem -> a_section b = MStr s ->
  bind_int (store st) (JNum (Number_of_string sem)) = Some (Some n) ->
  (v = MySQL -> bind_int (store st) (JStr sem) = Some (Some n)) ->
  status (snd (handle v st (PostAdd b syl ph))) = 200%Z ->
  exists r,
    In r (table (store (fst (handle v st (PostAdd b syl ph))))) /\
    key_match sql_trim c n s r = true /\
    snd (handle v (fst (handle v st (PostAdd b syl ph)))
           (GetDetails (Some c) (Some sem) (Some s))) = ok (row_json r).
Proof.
  intros Hc Hm Hs Hn HmY Hst.
  destruct (add_success v st b syl ph Hst)
    as [vals [n0 [r0 [Hv [Hon [Hn0 [Hdb [Kc [Kn [Ks _]]]]]]]]]].
  destruct (add_vals_key v b vals c sem s Hc Hm Hs Hv) as [Vc [Vm Vs]].
  assert (n0 = Some n) as ->.
  { destruct v; rewrite Vm in Hn0;
      [rewrite Hn in Hn0|rewrite (HmY eq_refl) in Hn0]; congruence. }
  rewrite (details_by_key v _ c sem s n); rewrite Hdb.
  - cbn [table with_table].
    assert (K0 : key_match sql_trim c n s r0 = true)
      by (apply key_match_written; congruence).
    destruct (filter (key_match sql_trim c n s) (app (table (store st)) [r0]))
      as [|r' l] eqn:F.
    + exfalso.
      assert (Hin : In r0 (filter (key_match sql_trim c n s)
                                   (app (table (store st)) [r0]))).
      { apply filter_In. split; [|exact K0].
        apply in_or_app. right. left. reflexivity. }
      rewrite F in Hin. exact Hin.
    + assert (Hin : In r' (filter (key_match sql_trim c n s)
                                   (app (table (store st)) [r0])))
        by (rewrite F; left; reflexivity).
      apply filter_In in Hin. destruct Hin as [Hin Hk].
      exists r'. auto.
  - exact Hon.
  - rewrite bind_int_with_table. exact Hn.
Qed.

Lemma add_then_details_witness :
  exists r,
    In r (table (store (fst (handle Postgres (st_of [] 1)
      (PostAdd (add_body "CS101" "3" " A ") None None))))) /\
    key_match sql_trim "CS101" 3 " A " r = true /\
    snd (handle Postgres (fst (handle Postgres (st_of [] 1)
           (PostAdd (add_body "CS101" "3" " A ") None None)))
           (GetDetails (Some "CS101") (Some "3") (Some " A ")))
      = ok (row_json r).
Proof.
  apply (add_then_details Postgres (st_of [] 1) (add_body "CS101" "3" " A ")
           None None "CS101" "3" " A " 3);
    [reflexivity|reflexivity|reflexivity|reflexivity|discriminate|reflexivity].
Defined.

Lemma txt_col (m : mval) :
  text_col m (Some (trim (if mtruthy m then mString m else ""))) (Some "") (Some "").
Proof.
  split; [intros ->; reflexivity|]. split; [intros ->; reflexivity|].
  intros s -> Hs. cbn [mtruthy mString].
  destruct (String.eqb s "") eqn:E; [apply String.eqb_eq in E; contradiction|].
  reflexivity.
Qed.

Lemma link_col (m : mval) :
  text_col m (if mtruthy m then Some (trim (mString m)) else None) None None.
Proof.
  split; [intros ->; reflexivity|]. split; [intros ->; reflexivity|].
  intros s -> Hs. cbn [mtruthy mString].
  destruct (String.eqb s "") eqn:E; [apply String.eqb_eq in E; contradiction|].
  reflexivity.
Qed.

Lemma opt_col (m : mval) (c : option string) :
  opt_trim (mval_to_jsval m) = Some c -> text_col m c None (Some "").
Proof.
  intros H. split; [intros ->; injection H as <-; reflexivity|].
  split; [intros ->; injection H as <-; reflexivity|].
  intros s -> _. injection H as <-. reflexivity.
Qed.

Lemma sec_col (m : mval) (sec : string) :
  opt_trim_or_empty (mval_to_jsval m) = Some sec ->
  text_col m (Some sec) (Some "") (Some "").
Proof.
  intros H. split; [intros ->; injection H as <-; reflexivity|].
  split; [intros ->; injection H as <-; reflexivity|].
  intros s -> _. injection H as <-. reflexivity.
Qed.

(** A successful add in the PostgreSQL variant appends one row whose six
    text columns are never NULL: a missing or empty field is stored as the
    empty string, any other text trimmed. The timetable link is NULL when
    missing or empty, and the semester column is [Number(semester)] as the
    store binds it. *)
Theorem postgres_add_columns (st : State) (b : AddBody) (syl ph : option Upload) :
  status (snd (handle Postgres st (PostAdd b syl ph))) = 200%Z ->
  exists r,
    table (store (fst (handle Postgres st (PostAdd b syl ph))))
      = app (table (store st)) [r] /\
    text_col (a_class_name b) (class_name r) (Some "") (Some "") /\
    text_col (a_section b) (section r) (Some "") (Some "") /\
    text_col (a_academic_year b) (academic_year r) (Some "") (Some "") /\
    text_col (a_mentor_name b) (mentor_name r) (Some "") (Some "") /\
    text_col (a_designation b) (designation r) (Some "") (Some "") /\
    text_col (a_contact b) (contact r) (Some "") (Some "") /\
    text_col (a_timetable_link b) (timetable_link r) None None /\
    class_name r <> None /\ section r <> None /\ academic_year r <> None /\
    mentor_name r <> None /\ designation r <> None /\ contact r <> None /\
    bind_int (store st) (JNum (mNumber (a_semester b))) = Some (semester r).
Proof.
  intros Hst.
  destruct (add_success Postgres st b syl ph Hst)
    as [vals [n [r [Hv [_ [Hn [Hdb [Kc [Kn [Ks [Ka [Km [Kd [Kt Kl]]]]]]]]]]]]]].
  injection Hv as <-. cbn in Kc, Ks, Ka, Km, Kd, Kt, Kl, Hn.
  exists r. rewrite Hdb.
  rewrite Kc, Ks, Ka, Km, Kd, Kt, Kl, Kn.
  repeat split; try apply txt_col; try apply link_col; try discriminate.
  exact Hn.
Qed.

Lemma postgres_add_columns_witness :
  status (snd (handle Postgres (st_of [] 1)
                 (PostAdd (add_body " CS101 " "3" "") None None))) = 200%Z /\
  exists r,
    table (store (fst (handle Postgres (st_of [] 1)
                         (PostAdd (add_body " CS101 " "3" "") None None))))
      = app [] [r] /\
    text_col (MStr " CS101 ") (class_name r) (Some "") (Some "") /\
    text_col (MStr "") (section r) (Some "") (Some "") /\
    text_col MMissing (academic_year r) (Some "") (Some "") /\
    text_col (MStr "A") (mentor_name r) (Some "") (Some "") /\
    text_col (MStr "Professor") (designation r) (Some "") (Some "") /\
    text_col (MStr "555") (contact r) (Some "") (Some "") /\
    text_col MMissing (timetable_link r) None None /\
    class_name r <> None /\ section r <> None /\ academic_year r <> None /\
    mentor_name r <> None /\ designation r <> None /\ contact r <> None /\
    bind_int (store (st_of [] 1)) (JNum (mNumber (MStr "3"))) = Some (semester r).
Proof.
  split; [reflexivity|].
  apply (postgres_add_columns (st_of [] 1) (add_body " CS101 " "3" "") None None).
  reflexivity.
Defined.

(** A successful add in the MySQL variant appends one row whose text
    columns are NULL for a missing field and the empty string for an empty
    one, except the section, stored as the empty string in both cases; other
    text is trimmed. The semester string is passed to the store as it is, so
    a missing semester is NULL. *)
Theorem mysql_add_columns (st : State) (b : AddBody) (syl ph : option Upload) :
  status (snd (handle MySQL st (PostAdd b syl ph))) = 200%Z ->
  exists r,
    table (store (fst (handle MySQL st (PostAdd b syl ph))))
      = app (table (store st)) [r] /\
    text_col (a_class_name b) (class_name r) None (Some "") /\
    text_col (a_section b) (section r) (Some "") (Some "") /\
    text_col (a_academic_year b) (academic_year r) None (Some "") /\
    text_col (a_mentor_name b) (mentor_name r) None (Some "") /\
    text_col (a_designation b) (designation r) None (Some "") /\
    text_col (a_contact b) (contact r) None (Some "") /\
    text_col (a_timetable_link b) (timetable_link r) None (Some "") /\
    bind_int (store st) (mval_to_jsval (a_semester b)) = Some (semester r) /\
    (a_semester b = MMissing -> semester r = None).
Proof.
  intros Hst.
  destruct (add_success MySQL st b syl ph Hst)
    as [vals [n [r [Hv [_ [Hn [Hdb [Kc [Kn [Ks [Ka [Km [Kd [Kt Kl]]]]]]]]]]]]]].
  unfold add_vals in Hv. cbv beta zeta in Hv.
  destruct (opt_trim (mval_to_jsval (a_class_name b))) as [c|] eqn:E1;
    [|discriminate].
  destruct (opt_trim_or_empty (mval_to_jsval (a_section b))) as [sec|] eqn:E2;
    [|discriminate].
  destruct (opt_trim (mval_to_jsval (a_academic_year b))) as [ay|] eqn:E3;
    [|discriminate].
  destruct (opt_trim (mval_to_jsval (a_mentor_name b))) as [mn|] eqn:E4;
    [|discriminate].
  destruct (opt_trim (mval_to_jsval (a_designation b))) as [d|] eqn:E5;
    [|discriminate].
  destruct (opt_trim (mval_to_jsval (a_contact b))) as [ct|] eqn:E6;
    [|discriminate].
  destruct (opt_trim (mval_to_jsval (a_timetable_link b))) as [tl|] eqn:E7;
    [|discriminate].
  injection Hv as <-. cbn in Kc, Ks, Ka, Km, Kd, Kt, Kl, Hn.
  exists r. rewrite Hdb.
  rewrite Kc, Ks, Ka, Km, Kd, Kt, Kl. rewrite <- Kn in Hn.
  split; [reflexivity|].
  split; [apply opt_col; exact E1|]. split; [apply sec_col; exact E2|].
  split; [apply opt_col; exact E3|]. split; [apply opt_col; exact E4|].
  split; [apply opt_col; exact E5|]. split; [apply opt_col; exact E6|].
  split; [apply opt_col; exact E7|]. split; [exact Hn|].
  intros Hm. rewrite Hm in Hn. injection Hn as <-. reflexivity.
Qed.

Lemma mysql_add_columns_witness :
  status (snd (handle MySQL (st_of [] 1)
                 (PostAdd (add_body " CS101 " "3" "") None None))) = 200%Z /\
  exists r,
    table (store (fst (handle MySQL (st_of [] 1)
                         (PostAdd (add_body " CS101 " "3" "") None None))))
      = app [] [r] /\
    text_col (MStr " CS101 ") (class_name r) None (Some "") /\
    text_col (MStr "") (section r) (Some "") (Some "") /\
    text_col MMissing (academic_year r) None (Some "") /\
    text_col (MStr "A") (mentor_name r) None (Some "") /\
    text_col (MStr "Professor") (designation r) None (Some "") /\
    text_col (MStr "555") (contact r) None (Some "") /\
    text_col MMissing (timetable_link r) None (Some "") /\
    bind_int (store (st_of [] 1)) (JStr "3") = Some (semester r) /\
    (MStr "3" = MMissing -> semester r = None).
Proof.
  split; [reflexivity|].
  apply (mysql_add_columns (st_of [] 1) (add_body " CS101 " "3" "") None None).
  reflexivity.
Defined.

Lemma mysql_array_field_no_vals (b : AddBody) (l : list string) :
  a_class_name b = MArr l \/ a_section b = MArr l \/
  a_academic_year b = MArr l \/ a_mentor_name b = MArr l \/
  a_designation b = MArr l \/ a_contact b = MArr l \/
  a_timetable_link b = MArr l ->
  add_vals MySQL b = None.
Proof.
  intros H. unfold add_vals. cbv beta zeta.
  destruct H as [H|[H|[H|[H|[H|[H|H]]]]]]; rewrite H;
    cbn [mval_to_jsval opt_trim opt_trim_or_empty];
    repeat match goal with
    | |- context [match ?x with Some _ => _ | None => _ end] => destruct x
    end; reflexivity.
Qed.

(** In the MySQL variant a text field sent twice (an array) has no [trim]:
    the add throws before any query, Express answers 500 with its error
    page, and the table store is left as it was. *)
Theorem mysql_add_repeated_field (st : State) (b : AddBody)
    (syl ph : option Upload) (l : list string) :
  a_class_name b = MArr l \/ a_section b = MArr l \/
  a_academic_year b = MArr l \/ a_mentor_name b = MArr l \/
  a_designation b = MArr l \/ a_contact b = MArr l \/
  a_timetable_link b = MArr l ->
  snd (handle MySQL st (PostAdd b syl ph)) = mkResp 500 PErrorPage /\
  store (fst (handle MySQL st (PostAdd b syl ph))) = store st.
Proof.
  intros H.
  rewrite (handle_add_none MySQL st b syl ph (mysql_array_field_no_vals b l H)).
  cbn [fst snd]. split; [reflexivity|].
  rewrite !store_upload_store. reflexivity.
Qed.

Lemma mysql_add_repeated_field_witness :
  snd (handle MySQL (st_of [] 1)
    (PostAdd {| a_class_name := MStr "CS101"; a_semester := MStr "3";
                a_section := MStr "A"; a_academic_year := MMissing;
                a_mentor_name := MArr ["A"; "B"]; a_designation := MStr "P";
                a_contact := MStr "555"; a_timetable_link := MMissing |}
       (Some notes) None)) = mkResp 500 PErrorPage.
Proof.
  refine (proj1 (mysql_add_repeated_field (st_of [] 1) _ (Some notes) None
                   ["A"; "B"] _)).
  right. right. right. left. reflexivity.
Defined.

Lemma upd_vals_fields (b : UpdBody) (vals : Vals) :
  upd_vals b = Some vals ->
  opt_trim (u_class_name b) = Some (v_class_name vals) /\
  v_semester vals = u_semester b /\
  opt_trim (u_academic_year b) = Some (v_academic_year vals) /\
  opt_trim (u_mentor_name b) = Some (v_mentor_name vals) /\
  opt_trim (u_designation b) = Some (v_designation vals) /\
  opt_trim (u_contact b) = Some (v_contact vals) /\
  opt_trim (u_timetable_link b) = Some (v_timetable_link vals).
Proof.
  unfold upd_vals. intros H.
  destruct (opt_trim (u_class_name b)) as [c|] eqn:E1; [|discriminate].
  destruct (opt_trim_or_empty (u_section b)) as [sec|] eqn:E2; [|discriminate].
  destruct (opt_trim (u_academic_year b)) as [ay|] eqn:E3; [|discriminate].
  destruct (opt_trim (u_mentor_name b)) as [mn|] eqn:E4; [|discriminate].
  destruct (opt_trim (u_designation b)) as [d|] eqn:E5; [|discriminate].
  destruct (opt_trim (u_contact b)) as [ct|] eqn:E6; [|discriminate].
  destruct (opt_trim (u_timetable_link b)) as [tl|] eqn:E7; [|discriminate].
  injection H as <-. cbn. auto 8.
Qed.

Lemma opt_upd_col (j : jsval) (c : option string) :
  opt_trim j = Some c -> upd_col j c.
Proof.
  intros H. split.
  - intros [-> | ->]; injection H as <-; reflexivity.
  - intros s ->. injection H as <-. reflexivity.
Qed.

(** After a successful update, every row with the requested id holds the
    sent values: each text column other than the section is NULL when its
    field is [undefined] or [null] and the trimmed string otherwise, and the
    semester is the sent value as the store binds it, NULL when omitted. *)
Theorem update_columns (v : variant) (st : State) (rid : string) (b : UpdBody)
    (k : option Z) :
  bind_int (store st) (JStr rid) = Some k ->
  status (snd (handle v st (PutUpdate rid b))) = 200%Z ->
  forall r, In r (table (store (fst (handle v st (PutUpdate rid b))))) ->
    matches (id_is k) r = true ->
    upd_col (u_class_name b) (class_name r) /\
    upd_col (u_academic_year b) (academic_year r) /\
    upd_col (u_mentor_name b) (mentor_name r) /\
    upd_col (u_designation b) (designation r) /\
    upd_col (u_contact b) (contact r) /\
    upd_col (u_timetable_link b) (timetable_link r) /\
    bind_int (store st) (u_semester b) = Some (semester r) /\
    (nullish (u_semester b) -> semester r = None).
Proof.
  intros Hk Hst r Hin Hhit.
  destruct (upd_vals b) as [vals|] eqn:Hv;
    [|rewrite (handle_update_none v st rid b Hv) in Hst; destruct v;
      discriminate].
  rewrite (handle_update_some v st rid b vals Hv) in Hst, Hin.
  unfold respond in Hst, Hin.
  destruct (exec (store st) (SUpdate vals (JStr rid))) as [[db' q]|] eqn:E;
    [|discriminate].
  cbn [fst store with_store] in Hin.
  unfold exec in E. destruct (negb (online (store st))); [discriminate|].
  cbv beta iota zeta in E. rewrite Hk in E.
  destruct (bind_int (store st) (v_semester vals)) as [n|] eqn:Hn;
    [|discriminate].
  destruct (forallb _ _); [|discriminate]. injection E as <- _.
  cbn [table with_table] in Hin.
  apply in_map_iff in Hin. destruct Hin as [r0 [Hr Hin]].
  destruct (matches (id_is k) r0) eqn:H0; [|subst r0; congruence].
  subst r. cbn [set_vals class_name academic_year mentor_name designation
                contact timetable_link semester].
  destruct (upd_vals_fields b vals Hv) as [F1 [F2 [F3 [F4 [F5 [F6 F7]]]]]].
  rewrite F2 in Hn.
  split; [apply opt_upd_col; exact F1|].
  split; [apply opt_upd_col; exact F3|].
  split; [apply opt_upd_col; exact F4|].
  split; [apply opt_upd_col; exact F5|].
  split; [apply opt_upd_col; exact F6|].
  split; [apply opt_upd_col; exact F7|].
  split; [exact Hn|].
  intros [Hs|Hs]; rewrite Hs in Hn; injection Hn as <-; reflexivity.
Qed.

Lemma update_columns_witness :
  bind_int (store ba_store) (JStr "2") = Some (Some 2%Z) /\
  status (snd (handle MySQL ba_store (PutUpdate "2" (upd_body " CS301 " 5 "C"))))
    = 200%Z /\
  forall r, In r (table (store (fst (handle MySQL ba_store
                                  (PutUpdate "2" (upd_body " CS301 " 5 "C")))))) ->
    matches (id_is (Some 2%Z)) r = true ->
    upd_col (JStr " CS301 ") (class_name r) /\
    upd_col JUndefined (academic_year r) /\
    upd_col (JStr "A") (mentor_name r) /\
    upd_col (JStr "Professor") (designation r) /\
    upd_col (JStr "555") (contact r) /\
    upd_col JUndefined (timetable_link r) /\
    bind_int (store ba_store) (JNum (Finite (inject_Z 5))) = Some (semester r) /\
    (nullish (JNum (Finite (inject_Z 5))) -> semester r = None).
Proof.
  split; [reflexivity|]. split; [reflexivity|].
  apply (update_columns MySQL ba_store "2" (upd_body " CS301 " 5 "C") (Some 2%Z));
    reflexivity.
Defined.

Lemma not_text_trim (j : jsval) : not_text j -> opt_trim j = None.
Proof. destruct j; cbn; tauto. Qed.

Lemma not_text_trim_or_empty (j : jsval) :
  not_text j -> opt_trim_or_empty j = None.
Proof. intros H. unfold opt_trim_or_empty. rewrite (not_text_trim j H). reflexivity. Qed.

(** An update whose text field is a number, a boolean, an array or an
    object throws before any query: the store is untouched and the answer is
    the variant's error for a thrown TypeError. *)
Theorem update_non_text_field (v : variant) (st : State) (rid : string)
    (b : UpdBody) :
  not_text (u_class_name b) \/ not_text (u_section b) \/
  not_text (u_academic_year b) \/ not_text (u_mentor_name b) \/
  not_text (u_designation b) \/ not_text (u_contact b) \/
  not_text (u_timetable_link b) ->
  handle v st (PutUpdate rid b) = (st, thrown v "Update failed").
Proof.
  intros H. apply handle_update_none. unfold upd_vals.
  destruct H as [H|[H|[H|[H|[H|[H|H]]]]]];
    first [rewrite (not_text_trim_or_empty _ H) | rewrite (not_text_trim _ H)];
    repeat match goal with
    | |- context [match ?x with Some _ => _ | None => _ end] => destruct x
    end; reflexivity.
Qed.

Lemma update_non_text_field_witness :
  handle Postgres ba_store
    (PutUpdate "2" {| u_class_name := JStr "CS101";
                      u_semester := JNum (Finite (inject_Z 2));
                      u_section := JStr "A"; u_academic_year := JUndefined;
                      u_mentor_name := JStr "A"; u_designation := JStr "P";
                      u_contact := JNum (Finite (inject_Z 555));
                      u_timetable_link := JNull |}) =
    (ba_store, thrown Postgres "Update failed").
Proof.
  apply (update_non_text_field Postgres ba_store "2").
  right. right. right. right. right. left. exact I.
Defined.

Definition no_ws (s : string) : bool :=
  forallb (fun c => negb (is_ws c)) (list_ascii_of_string s).

Lemma no_ws_app (a b : string) : no_ws (a ++ b) = no_ws a && no_ws b.
Proof.
  unfold no_ws. induction a as [|c a IH]; [reflexivity|].
  cbn [append list_ascii_of_string forallb]. rewrite IH, andb_assoc.
  reflexivity.
Qed.

Lemma no_ws_uint (d : Decimal.uint) : no_ws (NilEmpty.string_of_uint d) = true.
Proof. induction d; simpl; auto. Qed.

Lemma no_ws_Z_to_dec (z : Z) : no_ws (Z_to_dec z) = true.
Proof.
  unfold Z_to_dec, NilEmpty.string_of_int.
  destruct (Z.to_int z) as [d|d]; [apply no_ws_uint|].
  exact (no_ws_uint d).
Qed.

Lemma no_ws_replace (b : bool) (s : string) :
  no_ws (replace_ws_runs b s) = true.
Proof.
  revert b. induction s as [|c s IH]; intros b; [reflexivity|].
  cbn [replace_ws_runs]. destruct (is_ws c) eqn:E.
  - destruct b; [apply IH|]. exact (IH true).
  - unfold no_ws in *. cbn [list_ascii_of_string forallb].
    rewrite E, IH. reflexivity.
Qed.

Lemma replace_no_ws (s : string) : no_ws s = true -> replace_ws_runs false s = s.
Proof.
  unfold no_ws. induction s as [|c s IH]; [reflexivity|].
  cbn [replace_ws_runs list_ascii_of_string forallb]. intros H.
  apply andb_prop in H. destruct H as [H1 H2].
  destruct (is_ws c); [discriminate|]. rewrite IH by exact H2. reflexivity.
Qed.

(** The name multer stores an upload under never contains whitespace; an
    original name without whitespace is kept as it is after the timestamp
    and the underscore. *)
Theorem stored_filename_no_ws (u : Upload) :
  no_ws (filename u) = true /\
  (no_ws (originalname u) = true ->
   filename u = Z_to_dec (uploaded_at u) ++ "_" ++ originalname u).
Proof.
  unfold filename. split.
  - rewrite !no_ws_app, no_ws_Z_to_dec, no_ws_replace. reflexivity.
  - intros H. rewrite replace_no_ws by exact H. reflexivity.
Qed.

Lemma stored_filename_no_ws_witness :
  no_ws (filename notes) = true /\
  filename {| originalname := "notes.pdf"; uploaded_at := 1700000000000 |}
    = "1700000000000_notes.pdf".
Proof.
  split; [apply (stored_filename_no_ws notes)|].
  apply (stored_filename_no_ws
           {| originalname := "notes.pdf"; uploaded_at := 1700000000000 |}).
  reflexivity.
Defined.





(** [Number("")] is 0: a details lookup whose semester parameter is blank
    (empty or only whitespace) is the lookup for semester "0". *)
Theorem details_blank_semester (v : variant) (st : State)
    (cls : option string) (s : string) (sec : option string) :
  trim s = "" ->
  handle v st (GetDetails cls (Some s) sec) =
  handle v st (GetDetails cls (Some "0") sec).
Proof.
  intros H.
  assert (E : Number_of_string s = Number_of_string "0")
    by (unfold Number_of_string at 1; rewrite H; reflexivity).
  unfold handle, details_stmt. cbv beta iota zeta. rewrite E. reflexivity.
Qed.

Lemma details_blank_semester_witness :
  handle Postgres details_store (GetDetails (Some "CS101") (Some "  ") None) =
  handle Postgres details_store (GetDetails (Some "CS101") (Some "0") None).
Proof.
  apply (details_blank_semester Postgres details_store (Some "CS101") "  " None).
  reflexivity.
Defined.

End Extras.
